(** * Workflow engine of tiunimanager: workflow/aggregation.go

    A shallow embedding of the workflow aggregation (start, destroy,
    complete, executeTask, handleTaskError, handle) over an explicit state:
    the fields of [WorkFlowAggregation] together with the heap of node
    records the aggregation points to, the wall clock, the number of status
    queries made to the deployment oracle, and the log of persistence
    writes.  Node records are Go pointers ([*workflow.WorkFlowNode]); they
    are modelled as indices into the heap, so that a mutation through
    [flow.CurrentNode] or through [node] is seen by every holder of the
    pointer, as in the source. *)

From Stdlib Require Import ZArith Lia Ascii String.
From stdpp Require Import base strings gmap list.

Open Scope Z_scope.

(** ** Statuses and errors *)

(** [constants.WorkFlowStatus*], shared by workflows and nodes. *)
Inductive WorkFlowStatus :=
| WorkFlowStatusInitializing
| WorkFlowStatusProcessing
| WorkFlowStatusFinished
| WorkFlowStatusError
| WorkFlowStatusCanceled.

#[global] Instance WorkFlowStatus_eq_dec : EqDecision WorkFlowStatus.
Proof. solve_decision. Defined.

(** The error codes of [common/errors] used by the engine. *)
Inductive TiemErrorCode :=
| TIEM_FLOW_NOT_FOUND
| TIEM_TASK_CANCELED
| TIEM_PANIC
| TIEM_TASK_FAILED
| TIEM_WORKFLOW_NODE_POLLING_TIME_OUT.

(** A Go [error]: either an error of [common/errors] (code and message) or
    any other error returned by an executor, known by its text. *)
Inductive GoError :=
| TiemError (code : TiemErrorCode) (msg : string)
| PlainError (msg : string).

(** Modelled from the spec: [common/errors] is not under src.  The default
    explanation of a code and the text of an error ([err.Error()]); the
    spec only fixes that a tiem error carries its code and its message. *)
Definition codeName (c : TiemErrorCode) : string :=
  match c with
  | TIEM_FLOW_NOT_FOUND => "TIEM_FLOW_NOT_FOUND"
  | TIEM_TASK_CANCELED => "TIEM_TASK_CANCELED"
  | TIEM_PANIC => "TIEM_PANIC"
  | TIEM_TASK_FAILED => "TIEM_TASK_FAILED"
  | TIEM_WORKFLOW_NODE_POLLING_TIME_OUT => "TIEM_WORKFLOW_NODE_POLLING_TIME_OUT"
  end.

Definition codeExplanation (c : TiemErrorCode) : string :=
  match c with
  | TIEM_FLOW_NOT_FOUND => "flow not found"
  | TIEM_TASK_CANCELED => "task canceled"
  | TIEM_PANIC => "panic"
  | TIEM_TASK_FAILED => "task failed"
  | TIEM_WORKFLOW_NODE_POLLING_TIME_OUT => "polling timed out"
  end.

Definition errorText (e : GoError) : string :=
  match e with
  | TiemError c m => "[" +:+ codeName c +:+ "] " +:+ m
  | PlainError m => m
  end.

(** [errors.Error(code)], [errors.NewError(code, msg)] and
    [errors.NewErrorf(code, "%v", r)] for a value [r] printed as [r]. *)
Definition errors_Error (c : TiemErrorCode) : GoError := TiemError c (codeExplanation c).
Definition errors_NewError (c : TiemErrorCode) (msg : string) : GoError := TiemError c msg.

(** [fmt.Errorf(s)] with no operands: [s] is read as a format string, so
    ["%%"] prints ["%"], a verb prints ["%!v(MISSING)"] and a trailing ["%"]
    prints ["%!(NOVERB)"] (flags and widths are not modelled). *)
Fixpoint goErrorf (s : string) : string :=
  match s with
  | EmptyString => EmptyString
  | String c rest =>
      if Ascii.eqb c "%"%char then
        match rest with
        | EmptyString => "%!(NOVERB)"
        | String c' rest' =>
            if Ascii.eqb c' "%"%char then String "%"%char (goErrorf rest')
            else "%!" +:+ String c' ("(MISSING)" +:+ goErrorf rest')
        end
      else String c (goErrorf rest)
  end.

(** ** Records of [models/workflow] *)

(** [FlowContext.FlowData]: string keys, values known by their
    serialisation. *)
Abbreviation FlowData := (gmap string string) (only parsing).

Module WorkFlowNode.
Record t := mk {
    TenantId : string;
    Status : WorkFlowStatus;
    Name : string;
    BizID : string;
    ParentID : string;
    ReturnType : string;
    OperationID : string;
    Result : string;
    StartTime : Z }.

Definition with_status (s : WorkFlowStatus) (n : t) : t :=
    mk (TenantId n) s (Name n) (BizID n) (ParentID n) (ReturnType n)
       (OperationID n) (Result n) (StartTime n).
Definition with_result (r : string) (n : t) : t :=
    mk (TenantId n) (Status n) (Name n) (BizID n) (ParentID n) (ReturnType n)
       (OperationID n) r (StartTime n).

  (** Modelled from the spec: [WorkFlowNode.Processing], [Success] and
      [Fail] of models/workflow are not under src.  [Processing] moves the
      node to Processing; [Success] moves it to Finished and attaches the
      payload when there is one; [Fail] moves it to Error with the error's
      text as result. *)
Definition Processing (n : t) : t := with_status WorkFlowStatusProcessing n.
Definition Success (payload : option string) (n : t) : t :=
    let n' := with_status WorkFlowStatusFinished n in
    match payload with
    | Some r => with_result r n'
    | None => n'
    end.
Definition Fail (e : GoError) (n : t) : t :=
    with_result (errorText e) (with_status WorkFlowStatusError n).
End WorkFlowNode.

Module WorkFlow.
Record t := mk {
    ID : string;
    Name : string;
    BizID : string;
    BizType : string;
    TenantId : string;
    Status : WorkFlowStatus;
    Context : FlowData }.

Definition with_status (s : WorkFlowStatus) (w : t) : t :=
    mk (ID w) (Name w) (BizID w) (BizType w) (TenantId w) s (Context w).
Definition with_context (c : FlowData) (w : t) : t :=
    mk (ID w) (Name w) (BizID w) (BizType w) (TenantId w) (Status w) c.
End WorkFlow.

(** ** Node and workflow definitions *)

(** What an executor [func(node *WorkFlowNode, ctx *FlowContext) error]
    does: it may change the node and the flow data it is handed, and then
    either returns (with or without an error) or panics with a value. *)
Inductive ExecOutcome :=
| ExecReturn (n : WorkFlowNode.t) (fd : FlowData) (err : option GoError)
| ExecPanic (n : WorkFlowNode.t) (fd : FlowData) (r : string).

(** Modelled from the spec: [NodeDefine], [WorkFlowDefine] and the
    return-type constants of workflow/define.go are not under src. *)
Module NodeDefine.
Record t := mk {
    Name : string;
    SuccessEvent : string;
    FailEvent : string;
    ReturnType : string;
    Executor : WorkFlowNode.t -> FlowData -> ExecOutcome }.
End NodeDefine.

Definition SyncFuncNode : string := "SyncFuncNode".
Definition PollingNode : string := "PollingNode".

Module WorkFlowDefine.
Record t := mk {
    FlowName : string;
    TaskNodes : gmap string NodeDefine.t }.
End WorkFlowDefine.

(** ** Deployment status oracle *)

(** Modelled from the spec: package deployment is not under src.
    [GetStatus] answers with an error or an operation whose status is
    Running, Finished or Error, with a result and an error string. *)
Module Deployment.
Inductive Status := Running | Finished | Error.
Record Operation := mkOp { OpStatus : Status; OpResult : string; OpErrorStr : string }.
Inductive Answer :=
  | GetStatusFailed (msg : string)
  | GetStatusOk (op : Operation).
End Deployment.

Definition Status_eqb (a b : Deployment.Status) : bool :=
  match a, b with
  | Deployment.Running, Deployment.Running
  | Deployment.Finished, Deployment.Finished
  | Deployment.Error, Deployment.Error => true
  | _, _ => false
  end.

(** ** Persistence writes *)

Inductive DbWrite :=
| CreateWorkFlow (w : WorkFlow.t)
| CreateWorkFlowNode (n : WorkFlowNode.t)
| UpdateWorkFlowDetail (w : WorkFlow.t) (nodes : list WorkFlowNode.t).

(** ** The aggregation and its world *)

(** [Flow], [Define], [CurrentNode], [Nodes], [Context.FlowData] and
    [FlowError] are the fields of [WorkFlowAggregation]; [Heap] holds the
    node records the pointers [CurrentNode] and [Nodes] refer to, [Clock]
    is [time.Now()] in seconds, [OracleCalls] counts the [GetStatus] calls
    made so far, and [Db] is the log of persistence writes. *)
Record State := mkState {
  Flow : WorkFlow.t;
  Define : WorkFlowDefine.t;
  CurrentNode : option nat;
  Nodes : list nat;
  FlowDataOf : FlowData;
  FlowError : option string;
  Heap : list WorkFlowNode.t;
  Clock : Z;
  OracleCalls : nat;
  Db : list DbWrite }.

Definition set_Flow (w : WorkFlow.t) (st : State) : State :=
  mkState w (Define st) (CurrentNode st) (Nodes st) (FlowDataOf st)
    (FlowError st) (Heap st) (Clock st) (OracleCalls st) (Db st).
Definition set_CurrentNode (c : option nat) (st : State) : State :=
  mkState (Flow st) (Define st) c (Nodes st) (FlowDataOf st)
    (FlowError st) (Heap st) (Clock st) (OracleCalls st) (Db st).
Definition set_Nodes (ns : list nat) (st : State) : State :=
  mkState (Flow st) (Define st) (CurrentNode st) ns (FlowDataOf st)
    (FlowError st) (Heap st) (Clock st) (OracleCalls st) (Db st).
Definition set_FlowData (fd : FlowData) (st : State) : State :=
  mkState (Flow st) (Define st) (CurrentNode st) (Nodes st) fd
    (FlowError st) (Heap st) (Clock st) (OracleCalls st) (Db st).
Definition set_FlowError (e : option string) (st : State) : State :=
  mkState (Flow st) (Define st) (CurrentNode st) (Nodes st) (FlowDataOf st)
    e (Heap st) (Clock st) (OracleCalls st) (Db st).
Definition set_Heap (h : list WorkFlowNode.t) (st : State) : State :=
  mkState (Flow st) (Define st) (CurrentNode st) (Nodes st) (FlowDataOf st)
    (FlowError st) h (Clock st) (OracleCalls st) (Db st).
Definition set_Clock (t : Z) (st : State) : State :=
  mkState (Flow st) (Define st) (CurrentNode st) (Nodes st) (FlowDataOf st)
    (FlowError st) (Heap st) t (OracleCalls st) (Db st).
Definition set_OracleCalls (k : nat) (st : State) : State :=
  mkState (Flow st) (Define st) (CurrentNode st) (Nodes st) (FlowDataOf st)
    (FlowError st) (Heap st) (Clock st) k (Db st).
Definition set_Db (l : list DbWrite) (st : State) : State :=
  mkState (Flow st) (Define st) (CurrentNode st) (Nodes st) (FlowDataOf st)
    (FlowError st) (Heap st) (Clock st) (OracleCalls st) l.

(** [flow.Flow.Status = s] *)
Definition setFlowStatus (s : WorkFlowStatus) (st : State) : State :=
  set_Flow (WorkFlow.with_status s (Flow st)) st.

(** Reading a node record through its pointer, and [node.M()] for a method M that changes it. *)
Definition getNode (nid : nat) (st : State) : option WorkFlowNode.t := Heap st !! nid.
Definition updateNode (nid : nat) (f : WorkFlowNode.t -> WorkFlowNode.t) (st : State) : State :=
  set_Heap (alter f nid (Heap st)) st.
Definition nodeStatus (nid : nat) (st : State) : option WorkFlowStatus :=
  WorkFlowNode.Status <$> getNode nid st.
Definition nodeResult (nid : nat) (st : State) : option string :=
  WorkFlowNode.Result <$> getNode nid st.

(** [flow.Define.TaskNodes[name]]: a missing key reads as [nil]. *)
Definition lookupTask (st : State) (name : string) : option NodeDefine.t :=
  WorkFlowDefine.TaskNodes (Define st) !! name.

(** [models.GetWorkFlowReaderWriter().UpdateWorkFlowDetail(flow.Context,
    flow.Flow, flow.Nodes)]: the workflow row and the current content of
    every node record of the history.  A failing write is only logged. *)
Definition persistDetail (st : State) : State :=
  set_Db (Db st ++ [UpdateWorkFlowDetail (Flow st) (omap (fun i => Heap st !! i) (Nodes st))]) st.

(** int32 arithmetic ([sequence++] on an [int32]). *)
Definition int32_wrap (z : Z) : Z := (z + 2 ^ 31) mod 2 ^ 32 - 2 ^ 31.

Section Engine.

(** [maxPollingSequence] (a package constant not under src) and the status
    oracle [deployment.M.GetStatus], which answers the [k]-th query (counted
    from 0 over the whole run) for an operation id. *)
Variable maxPollingSequence : Z.
Variable GetStatus : nat -> string -> Deployment.Answer.

(** [complete(success)] (its receiver is a copy of the aggregation, but
    [Flow] is a pointer, so the status change is seen by the caller). *)
Definition complete (success : bool) (st : State) : State :=
  if success then setFlowStatus WorkFlowStatusFinished st
  else setFlowStatus WorkFlowStatusError st.

(** [destroy(ctx, reason)] *)
Definition destroy (reason : string) (st : State) : State :=
  let st := setFlowStatus WorkFlowStatusCanceled st in
  let st :=
    match CurrentNode st with
    | Some nid => updateNode nid (WorkFlowNode.Fail (errors_NewError TIEM_TASK_CANCELED reason)) st
    | None => st
    end in
  persistDetail st.

(** [executeTask(node, nodeDefine)]: the deferred [recover] turns a panic of
    the executor into a [TIEM_PANIC] error that fails the node. *)
Definition executeTask (nid : nat) (d : NodeDefine.t) (st : State) : option GoError * State :=
  let st := set_CurrentNode (Some nid) st in
  let st := set_Nodes (Nodes st ++ [nid]) st in
  let st := updateNode nid WorkFlowNode.Processing st in
  let st := set_Flow (WorkFlow.with_context (FlowDataOf st) (Flow st)) st in
  let st := persistDetail st in
  match getNode nid st with
  | None => (None, st) (* the pointer is never dangling *)
  | Some n =>
      match NodeDefine.Executor d n (FlowDataOf st) with
      | ExecReturn n' fd err =>
          let st := set_FlowData fd (updateNode nid (fun _ => n') st) in
          match err with
          | Some e => (Some e, updateNode nid (WorkFlowNode.Fail e) st)
          | None => (None, st)
          end
      | ExecPanic n' fd r =>
          let execErr := TiemError TIEM_PANIC r in
          let st := set_FlowData fd (updateNode nid (fun _ => n') st) in
          (Some execErr, updateNode nid (WorkFlowNode.Fail execErr) st)
      end
  end.

(** [handleTaskError(node, nodeDefine)], given the [handle] it recurses
    into. *)
Definition handleTaskError (handle : option NodeDefine.t -> State -> option (bool * State))
    (nid : nat) (d : NodeDefine.t) (st : State) : option State :=
  let res := match getNode nid st with Some n => WorkFlowNode.Result n | None => "" end in
  let st := set_FlowError (Some (goErrorf res)) st in
  if negb (String.eqb (NodeDefine.FailEvent d) "") then
    snd <$> handle (lookupTask st (NodeDefine.FailEvent d)) st
  else Some st.

(** The polling loop of [handle] for a [PollingNode]: [for range ticker.C]
    with a 3 second ticker.  [ticks] bounds the number of ticks this
    development unfolds; [handle] is the recursion into the successor. *)
Fixpoint pollLoop (handle : option NodeDefine.t -> State -> option (bool * State))
    (ticks : nat) (sequence : Z) (nid : nat) (d : NodeDefine.t) (st : State)
    : option (bool * State) :=
  match ticks with
  | O => None
  | S ticks' =>
      let st := set_Clock (Clock st + 3) st in
      let sequence := int32_wrap (sequence + 1) in
      if Z.gtb sequence maxPollingSequence then
        let st := updateNode nid (WorkFlowNode.Fail (errors_Error TIEM_WORKFLOW_NODE_POLLING_TIME_OUT)) st in
        (fun s => (false, s)) <$> handleTaskError handle nid d st
      else
        let opId := match getNode nid st with Some n => WorkFlowNode.OperationID n | None => "" end in
        let answer := GetStatus (OracleCalls st) opId in
        let st := set_OracleCalls (S (OracleCalls st)) st in
        match answer with
        | Deployment.GetStatusFailed msg =>
            let st := updateNode nid (WorkFlowNode.Fail (errors_NewError TIEM_TASK_FAILED msg)) st in
            (fun s => (false, s)) <$> handleTaskError handle nid d st
        | Deployment.GetStatusOk op =>
            if Status_eqb (Deployment.OpStatus op) Deployment.Error then
              let st := updateNode nid (WorkFlowNode.Fail (errors_NewError TIEM_TASK_FAILED (Deployment.OpErrorStr op))) st in
              (fun s => (false, s)) <$> handleTaskError handle nid d st
            else if Status_eqb (Deployment.OpStatus op) Deployment.Finished then
              let st :=
                if negb (String.eqb (Deployment.OpResult op) "")
                then updateNode nid (WorkFlowNode.Success (Some (Deployment.OpResult op))) st
                else updateNode nid (WorkFlowNode.Success None) st in
              handle (lookupTask st (NodeDefine.SuccessEvent d)) st
            else pollLoop handle ticks' sequence nid d st
        end
  end.

(** The node record [handle] creates for a definition. *)
Definition newNode (d : NodeDefine.t) (st : State) : WorkFlowNode.t :=
  {| WorkFlowNode.TenantId := WorkFlow.TenantId (Flow st);
     WorkFlowNode.Status := WorkFlowStatusInitializing;
     WorkFlowNode.Name := NodeDefine.Name d;
     WorkFlowNode.BizID := WorkFlow.BizID (Flow st);
     WorkFlowNode.ParentID := WorkFlow.ID (Flow st);
     WorkFlowNode.ReturnType := NodeDefine.ReturnType d;
     WorkFlowNode.OperationID := "";
     WorkFlowNode.Result := "";
     WorkFlowNode.StartTime := Clock st |}.

(** [node := &workflow.WorkFlowNode{...}] followed by [CreateWorkFlowNode]
    (a failing write is only logged). *)
Definition allocNode (d : NodeDefine.t) (st : State) : nat * State :=
  let n := newNode d st in
  (length (Heap st), set_Db (Db st ++ [CreateWorkFlowNode n]) (set_Heap (Heap st ++ [n]) st)).

(** [handle(nodeDefine)]; [None] for the [nil] pointer.  [fuel] bounds the
    depth of the recursion this development unfolds: a result [None] means
    the bound was reached (a cyclic definition recurses forever in Go). *)
Fixpoint handle (fuel : nat) (nodeDefine : option NodeDefine.t) (st : State) {struct fuel}
    : option (bool * State) :=
  match fuel with
  | O => None
  | S fuel' =>
      match nodeDefine with
      | None => Some (true, setFlowStatus WorkFlowStatusFinished st)
      | Some d =>
          let '(nid, st) := allocNode d st in
          let '(handleError, st) := executeTask nid d st in
          match handleError with
          | Some _ => (fun s => (false, s)) <$> handleTaskError (handle fuel') nid d st
          | None =>
              if String.eqb (NodeDefine.ReturnType d) SyncFuncNode then
                let st := updateNode nid (WorkFlowNode.Success None) st in
                handle fuel' (lookupTask st (NodeDefine.SuccessEvent d)) st
              else if String.eqb (NodeDefine.ReturnType d) PollingNode then
                if decide (nodeStatus nid st = Some WorkFlowStatusFinished) then
                  handle fuel' (lookupTask st (NodeDefine.SuccessEvent d)) st
                else pollLoop (handle fuel') fuel' 0 nid d st
              else Some (true, st)
          end
      end
  end.

(** [start(ctx)]: [None] when [handle] reached the recursion bound. *)
Definition start (fuel : nat) (st : State) : option State :=
  let st := setFlowStatus WorkFlowStatusProcessing st in
  let startDef := lookupTask st "start" in
  match handle fuel startDef st with
  | None => None
  | Some (result, st) => Some (persistDetail (complete result st))
  end.

End Engine.

(** Modelled from the spec: [WorkFlowDefine.getInstance] is not under src.
    It builds the aggregation of a new workflow record (status
    Initializing) for the business object, with empty flow data and no
    node yet. *)
Definition getInstance (define : WorkFlowDefine.t) (flowId bizId bizType : string) : State :=
  {| Flow := WorkFlow.mk flowId (WorkFlowDefine.FlowName define) bizId bizType ""
               WorkFlowStatusInitializing ∅;
     Define := define; CurrentNode := None; Nodes := []; FlowDataOf := ∅;
     FlowError := None; Heap := []; Clock := 0; OracleCalls := 0; Db := [] |}.


(** ** The flow context *)




Section Context.

(** Whether [json.Marshal] accepts the data map (it refuses values such as
    channels, functions or cyclic structures). *)
Variable jsonMarshalOk : FlowData -> bool.


End Context.


(** The message with which the polling loop fails a node on an answer of
    the status oracle: the call's error, or the operation's error string
    when the operation reports Error; [None] for the other answers. *)
Definition failMessage (a : Deployment.Answer) : option string :=
  match a with
  | Deployment.GetStatusFailed msg => Some msg
  | Deployment.GetStatusOk op =>
      if Status_eqb (Deployment.OpStatus op) Deployment.Error
      then Some (Deployment.OpErrorStr op) else None
  end.

(** The state after [m] ticks answered Running and one more tick whose
    answer fails the node with message [msg]. *)
Definition pollFailedState (nid m : nat) (msg : string) (st : State) : State :=
  updateNode nid (WorkFlowNode.Fail (errors_NewError TIEM_TASK_FAILED msg))
    (set_Clock (Clock st + 3 * (Z.of_nat m + 1)) (set_OracleCalls (OracleCalls st + S m) st)).

(** A persistence write made while the flow [w] runs is well formed when
    each node record it creates is new (Initializing) and belongs to [w]. *)
Definition createdUnder (w : WorkFlow.t) (x : DbWrite) : Prop :=
  match x with
  | CreateWorkFlowNode n =>
      WorkFlowNode.Status n = WorkFlowStatusInitializing /\
      WorkFlowNode.ParentID n = WorkFlow.ID w /\
      WorkFlowNode.BizID n = WorkFlow.BizID w /\
      WorkFlowNode.TenantId n = WorkFlow.TenantId w
  | _ => True
  end.

(** The fields of the workflow record that identify it. *)
Definition flowKey (w : WorkFlow.t) : string * string * string :=
  (WorkFlow.ID w, WorkFlow.BizID w, WorkFlow.TenantId w).

(** ** Sample definitions used by the witnesses *)

Module Samples.
Definition execOk : WorkFlowNode.t -> FlowData -> ExecOutcome :=
    fun n fd => ExecReturn n fd None.
Definition execErr (msg : string) : WorkFlowNode.t -> FlowData -> ExecOutcome :=
    fun n fd => ExecReturn n fd (Some (PlainError msg)).
Definition execPanic (r : string) : WorkFlowNode.t -> FlowData -> ExecOutcome :=
    fun n fd => ExecPanic n fd r.
  (** An executor that starts a deployment operation and records its id. *)
Definition execStartOp (opId : string) : WorkFlowNode.t -> FlowData -> ExecOutcome :=
    fun n fd =>
      ExecReturn (WorkFlowNode.mk (WorkFlowNode.TenantId n) (WorkFlowNode.Status n)
                    (WorkFlowNode.Name n) (WorkFlowNode.BizID n) (WorkFlowNode.ParentID n)
                    (WorkFlowNode.ReturnType n) opId (WorkFlowNode.Result n)
                    (WorkFlowNode.StartTime n)) fd None.

Definition define (name : string) (nodes : list NodeDefine.t) : WorkFlowDefine.t :=
    WorkFlowDefine.mk name (list_to_map ((fun d => (NodeDefine.Name d, d)) <$> nodes)).

Definition running : Deployment.Answer :=
    Deployment.GetStatusOk (Deployment.mkOp Deployment.Running "" "").
Definition finishedWith (r : string) : Deployment.Answer :=
    Deployment.GetStatusOk (Deployment.mkOp Deployment.Finished r "").
Definition failedOp (e : string) : Deployment.Answer :=
    Deployment.GetStatusOk (Deployment.mkOp Deployment.Error "" e).

  (** The scenario of the spec: two synchronous nodes. *)
Definition twoSync : WorkFlowDefine.t :=
    define "create" [NodeDefine.mk "start" "create_success" "" SyncFuncNode execOk;
                     NodeDefine.mk "create_success" "" "" SyncFuncNode execOk].

Definition instance (d : WorkFlowDefine.t) : State := getInstance d "wf-1" "cluster-1" "cluster".
  (** An executor that itself marks its node finished. *)
Definition execMarksFinished : WorkFlowNode.t -> FlowData -> ExecOutcome :=
    fun n fd => ExecReturn (WorkFlowNode.Success None n) fd None.

Definition syncStart : NodeDefine.t := NodeDefine.mk "start" "create_success" "" SyncFuncNode execOk.

  (** The fail-path scenario of the spec: [start] fails, [cleanup] runs. *)
Definition failingStart : NodeDefine.t := NodeDefine.mk "start" "" "cleanup" SyncFuncNode (execErr "boom").
Definition syncCleanup : NodeDefine.t := NodeDefine.mk "cleanup" "" "" SyncFuncNode execOk.
Definition failPath : WorkFlowDefine.t := define "fail-path" [failingStart; syncCleanup].

  (** A polling node that starts deployment operation [op-1]. *)
Definition pollStart : NodeDefine.t := NodeDefine.mk "start" "" "" PollingNode (execStartOp "op-1").
Definition polling : WorkFlowDefine.t := define "polling" [pollStart].

Definition panicStart : NodeDefine.t := NodeDefine.mk "start" "" "" SyncFuncNode (execPanic "nil map").

  (** A node of another return type, with a successor. *)
Definition asyncStart : NodeDefine.t := NodeDefine.mk "start" "create_success" "" "AsyncFuncNode" execOk.
Definition asyncSelfFinishing : NodeDefine.t :=
    NodeDefine.mk "start" "create_success" "" "AsyncFuncNode" execMarksFinished.


  (** The oracle answers: always Running; Running twice, then Finished. *)
Definition alwaysRunning : nat -> string -> Deployment.Answer := fun _ _ => running.
Definition finishesThird (r : string) : nat -> string -> Deployment.Answer :=
    fun k _ => if (k <? 2)%nat then running else finishedWith r.

(** A polling node whose executor marks it finished itself. *)
Definition pollSelfFinishing : NodeDefine.t :=
  NodeDefine.mk "start" "" "" PollingNode execMarksFinished.


(** A definition without a start node. *)
Definition noStart : WorkFlowDefine.t := define "no-start" [syncCleanup].

(** Results of concrete runs. *)
Definition twoSyncRun : State :=
  default (instance twoSync) (start 3 alwaysRunning 5 (instance twoSync)).
Definition twoSyncHandle : bool * State :=
  default (true, instance twoSync) (handle 3 alwaysRunning 5 (Some syncStart) (instance twoSync)).
Definition failPathRun : State :=
  default (instance failPath) (start 3 alwaysRunning 5 (instance failPath)).
Definition failingStartStep : bool * State :=
  default (true, instance failPath) (handle 3 alwaysRunning 5 (Some failingStart) (instance failPath)).
End Samples.

(** ** Node pointers and state updates *)

Definition outcomeError (o : ExecOutcome) : option GoError :=
  match o with
  | ExecReturn _ _ e => e
  | ExecPanic _ _ r => Some (TiemError TIEM_PANIC r)
  end.

Definition outcomeNode (o : ExecOutcome) : WorkFlowNode.t :=
  match o with
  | ExecReturn n _ (Some e) => WorkFlowNode.Fail e n
  | ExecReturn n _ None => n
  | ExecPanic n _ r => WorkFlowNode.Fail (TiemError TIEM_PANIC r) n
  end.

(** What the executor of [d] does when [handle] runs [d] from [st]: it is
    handed the new node record, already marked Processing, and the flow
    data. *)
Definition execOutcome (d : NodeDefine.t) (st : State) : ExecOutcome :=
  NodeDefine.Executor d (WorkFlowNode.Processing (newNode d st)) (FlowDataOf st).

Definition isRunning (a : Deployment.Answer) : bool :=
  match a with
  | Deployment.GetStatusOk op => Status_eqb (Deployment.OpStatus op) Deployment.Running
  | Deployment.GetStatusFailed _ => false
  end.

Ltac state_eq st :=
  unfold set_Heap, set_Clock, set_OracleCalls; destruct st; cbn; f_equal; lia.

(** The payload [handle] attaches to a finished polling node. *)
Definition successPayload (r : string) : option string :=
  if String.eqb r "" then None else Some r.

(** The state after [m] ticks answered Running and one more tick that
    exceeds the maximum sequence. *)
Definition pollTimeoutState (nid m : nat) (st : State) : State :=
  updateNode nid (WorkFlowNode.Fail (errors_Error TIEM_WORKFLOW_NODE_POLLING_TIME_OUT))
    (set_Clock (Clock st + 3 * (Z.of_nat m + 1)) (set_OracleCalls (OracleCalls st + m) st)).

(** The state after [m] ticks answered Running and one tick answered
    Finished with result [r]. *)
Definition pollFinishedState (nid m : nat) (r : string) (st : State) : State :=
  updateNode nid (WorkFlowNode.Success (successPayload r))
    (set_Clock (Clock st + 3 * (Z.of_nat m + 1)) (set_OracleCalls (OracleCalls st + S m) st)).

(** [d] with another success event. *)
Definition withSuccessEvent (se : string) (d : NodeDefine.t) : NodeDefine.t :=
  NodeDefine.mk (NodeDefine.Name d) se (NodeDefine.FailEvent d) (NodeDefine.ReturnType d)
    (NodeDefine.Executor d).

(** An aggregation whose node 0 is current. *)
Definition runningInstance : State :=
  set_CurrentNode (Some 0%nat)
    (set_Heap [WorkFlowNode.Processing (newNode Samples.syncStart (Samples.instance Samples.twoSync))] (Samples.instance Samples.twoSync)).

(** A run of [syncStart] from [runningInstance], and its node 0 failed. *)
Definition runningRun : bool * State :=
  default (true, runningInstance) (handle 3 Samples.alwaysRunning 5 (Some Samples.syncStart) runningInstance).
Definition failedInstance : State :=
  updateNode 0 (WorkFlowNode.Fail (PlainError "boom")) runningInstance.

Lemma getNode_updateNode_eq nid f st n :
  getNode nid st = Some n -> getNode nid (updateNode nid f st) = Some (f n).
Proof.
  intros H. unfold getNode, updateNode in *. simpl. by rewrite list_lookup_alter_eq, H.
Qed.

Lemma getNode_updateNode_ne nid nid' f st :
  nid <> nid' -> getNode nid' (updateNode nid f st) = getNode nid' st.
Proof.
  intros H. unfold getNode, updateNode. simpl. by apply list_lookup_alter_ne.
Qed.

Lemma length_Heap_updateNode nid f st :
  length (Heap (updateNode nid f st)) = length (Heap st).
Proof. unfold updateNode. simpl. apply length_alter. Qed.

Lemma allocNode_spec d st nid st1 :
  allocNode d st = (nid, st1) ->
  nid = length (Heap st) /\ getNode nid st1 = Some (newNode d st) /\
  Define st1 = Define st /\ OracleCalls st1 = OracleCalls st /\
  FlowDataOf st1 = FlowDataOf st /\ Clock st1 = Clock st /\
  length (Heap st1) = S (length (Heap st)) /\
  (forall i, i < length (Heap st) -> getNode i st1 = getNode i st)%nat.
Proof.
  unfold allocNode. intros H. injection H as <- <-.
  unfold getNode. simpl. repeat split.
  - by apply list_lookup_middle.
  - rewrite length_app. simpl. lia.
  - intros i Hi. by apply lookup_app_l.
Qed.

Lemma executeTask_spec nid d st n0 :
  getNode nid st = Some n0 ->
  let o := NodeDefine.Executor d (WorkFlowNode.Processing n0) (FlowDataOf st) in
  exists st',
    executeTask nid d st = (outcomeError o, st') /\
    getNode nid st' = Some (outcomeNode o) /\
    Define st' = Define st /\ OracleCalls st' = OracleCalls st /\
    Clock st' = Clock st /\ length (Heap st') = length (Heap st) /\
    CurrentNode st' = Some nid /\
    (forall i, i <> nid -> getNode i st' = getNode i st).
Proof.
  intros H o. unfold executeTask, o.
  unfold getNode at 1. unfold updateNode at 1. simpl.
  rewrite list_lookup_alter_eq. unfold getNode in H. rewrite H. simpl.
  destruct (NodeDefine.Executor d (WorkFlowNode.Processing n0) (FlowDataOf st))
    as [n' fd [e|] | n' fd r]; simpl;
    eexists; (split; [reflexivity|]);
    unfold getNode, updateNode; simpl;
    rewrite ?list_lookup_alter_eq, ?H; simpl;
    repeat split; rewrite ?length_alter; try reflexivity;
    intros i Hi; rewrite ?list_lookup_alter_ne; auto.
Qed.

Lemma run_node d st :
  let o := execOutcome d st in
  exists st1 st2,
    allocNode d st = (length (Heap st), st1) /\
    executeTask (length (Heap st)) d st1 = (outcomeError o, st2) /\
    getNode (length (Heap st)) st2 = Some (outcomeNode o) /\
    Define st2 = Define st /\ OracleCalls st2 = OracleCalls st /\
    Clock st2 = Clock st /\ length (Heap st2) = S (length (Heap st)) /\
    CurrentNode st2 = Some (length (Heap st)) /\
    (forall i, i < length (Heap st) -> getNode i st2 = getNode i st)%nat.
Proof.
  unfold execOutcome.
  destruct (allocNode d st) as [nid st1] eqn:Ha.
  destruct (allocNode_spec _ _ _ _ Ha)
    as (-> & Hg & HD & HO & HF & HC & HL & Hold).
  destruct (executeTask_spec (length (Heap st)) d st1 _ Hg)
    as (st2 & He & Hg2 & HD2 & HO2 & HC2 & HL2 & Hcur & Hother).
  rewrite HF in He, Hg2.
  exists st1, st2. repeat split; try congruence.
  intros i Hi. rewrite Hother by lia. by apply Hold.
Qed.

Section Steps.
Variable mp : Z.
Variable gs : nat -> string -> Deployment.Answer.

Lemma handle_step_error fuel d st nid st1 e st2 :
  allocNode d st = (nid, st1) -> executeTask nid d st1 = (Some e, st2) ->
  handle mp gs (S fuel) (Some d) st =
    (fun s => (false, s)) <$> handleTaskError (handle mp gs fuel) nid d st2.
Proof. intros H1 H2. cbn [handle]. rewrite H1, H2. reflexivity. Qed.

Lemma handle_step_sync fuel d st nid st1 st2 :
  allocNode d st = (nid, st1) -> executeTask nid d st1 = (None, st2) ->
  NodeDefine.ReturnType d = SyncFuncNode ->
  handle mp gs (S fuel) (Some d) st =
    let st3 := updateNode nid (WorkFlowNode.Success None) st2 in
    handle mp gs fuel (lookupTask st3 (NodeDefine.SuccessEvent d)) st3.
Proof. intros H1 H2 H3. cbn [handle]. rewrite H1, H2, H3. reflexivity. Qed.

Lemma handle_step_poll fuel d st nid st1 st2 :
  allocNode d st = (nid, st1) -> executeTask nid d st1 = (None, st2) ->
  NodeDefine.ReturnType d = PollingNode ->
  nodeStatus nid st2 <> Some WorkFlowStatusFinished ->
  handle mp gs (S fuel) (Some d) st = pollLoop mp gs (handle mp gs fuel) fuel 0 nid d st2.
Proof.
  intros H1 H2 H3 H4. cbn [handle]. rewrite H1, H2, H3. simpl.
  by rewrite decide_False.
Qed.

Lemma handle_step_other fuel d st nid st1 st2 :
  allocNode d st = (nid, st1) -> executeTask nid d st1 = (None, st2) ->
  NodeDefine.ReturnType d <> SyncFuncNode -> NodeDefine.ReturnType d <> PollingNode ->
  handle mp gs (S fuel) (Some d) st = Some (true, st2).
Proof.
  intros H1 H2 H3 H4. cbn [handle]. rewrite H1, H2.
  apply String.eqb_neq in H3, H4. by rewrite H3, H4.
Qed.

End Steps.

(** ** The polling loop *)

Lemma int32_wrap_small z : - 2 ^ 31 <= z < 2 ^ 31 -> int32_wrap z = z.
Proof. intros H. unfold int32_wrap. rewrite Z.mod_small; lia. Qed.

Section Polling.
Variable mp : Z.
Variable gs : nat -> string -> Deployment.Answer.
Variable h : option NodeDefine.t -> State -> option (bool * State).

Lemma pollLoop_tick_timeout t s nid d st :
  - 2 ^ 31 <= s + 1 < 2 ^ 31 -> mp < s + 1 ->
  pollLoop mp gs h (S t) s nid d st =
    (fun x => (false, x)) <$> handleTaskError h nid d
      (updateNode nid (WorkFlowNode.Fail (errors_Error TIEM_WORKFLOW_NODE_POLLING_TIME_OUT))
         (set_Clock (Clock st + 3) st)).
Proof.
  intros H1 H2. cbn [pollLoop]. rewrite int32_wrap_small by lia.
  destruct (Z.gtb_spec (s + 1) mp); [reflexivity | lia].
Qed.

Lemma pollLoop_tick_running t s nid d st n :
  - 2 ^ 31 <= s + 1 < 2 ^ 31 -> s + 1 <= mp ->
  getNode nid st = Some n ->
  isRunning (gs (OracleCalls st) (WorkFlowNode.OperationID n)) = true ->
  pollLoop mp gs h (S t) s nid d st =
    pollLoop mp gs h t (s + 1) nid d
      (set_OracleCalls (S (OracleCalls st)) (set_Clock (Clock st + 3) st)).
Proof.
  intros H1 H2 Hn Hr. cbn [pollLoop]. rewrite int32_wrap_small by lia.
  destruct (Z.gtb_spec (s + 1) mp); [lia |].
  change (getNode nid (set_Clock (Clock st + 3) st)) with (getNode nid st).
  rewrite Hn. cbn [OracleCalls set_Clock].
  destruct (gs (OracleCalls st) (WorkFlowNode.OperationID n)) as [msg | [[] r e]];
    try discriminate; reflexivity.
Qed.
End Polling.

Section PollingRuns.
Variable mp : Z.
Variable gs : nat -> string -> Deployment.Answer.
Variable h : option NodeDefine.t -> State -> option (bool * State).

Lemma pollLoop_tick_finished t s nid d st n op :
  - 2 ^ 31 <= s + 1 < 2 ^ 31 -> s + 1 <= mp ->
  getNode nid st = Some n ->
  gs (OracleCalls st) (WorkFlowNode.OperationID n) = Deployment.GetStatusOk op ->
  Deployment.OpStatus op = Deployment.Finished ->
  pollLoop mp gs h (S t) s nid d st =
    let st' := updateNode nid (WorkFlowNode.Success (successPayload (Deployment.OpResult op)))
                 (set_OracleCalls (S (OracleCalls st)) (set_Clock (Clock st + 3) st)) in
    h (lookupTask st' (NodeDefine.SuccessEvent d)) st'.
Proof.
  intros H1 H2 Hn Ho Hs. cbn [pollLoop]. rewrite int32_wrap_small by lia.
  destruct (Z.gtb_spec (s + 1) mp); [lia |].
  change (getNode nid (set_Clock (Clock st + 3) st)) with (getNode nid st).
  rewrite Hn. cbn [OracleCalls set_Clock]. rewrite Ho, Hs. simpl.
  unfold successPayload. by destruct (String.eqb (Deployment.OpResult op) "").
Qed.

Lemma pollLoop_runs_out nid d n m :
  forall ticks s st,
  0 <= s -> s + Z.of_nat m = mp -> mp < 2 ^ 31 - 1 -> (m < ticks)%nat ->
  getNode nid st = Some n ->
  (forall j, (j < m)%nat -> isRunning (gs (OracleCalls st + j) (WorkFlowNode.OperationID n)) = true) ->
  pollLoop mp gs h ticks s nid d st =
    (fun x => (false, x)) <$> handleTaskError h nid d (pollTimeoutState nid m st).
Proof.
  induction m as [|m IH]; intros ticks s st Hs Hm Hmax Ht Hn Hr;
    (destruct ticks as [|t]; [lia|]).
  - rewrite pollLoop_tick_timeout by lia.
    unfold pollTimeoutState, updateNode. f_equal. f_equal. state_eq st.
  - rewrite (pollLoop_tick_running mp gs h t s nid d st n) by
      (assumption || lia ||
       (rewrite <- (Nat.add_0_r (OracleCalls st)); apply Hr; lia)).
    rewrite (IH t (s + 1)); try lia; try assumption.
    + unfold pollTimeoutState, updateNode. f_equal. f_equal. state_eq st.
    + intros j Hj. cbn [OracleCalls set_OracleCalls].
      replace (S (OracleCalls st) + j)%nat with (OracleCalls st + S j)%nat by lia.
      apply Hr. lia.
Qed.

Lemma pollLoop_finishes nid d n op m :
  forall ticks s st,
  0 <= s -> s + Z.of_nat m + 1 <= mp -> mp < 2 ^ 31 - 1 -> (m < ticks)%nat ->
  getNode nid st = Some n ->
  (forall j, (j < m)%nat -> isRunning (gs (OracleCalls st + j) (WorkFlowNode.OperationID n)) = true) ->
  gs (OracleCalls st + m) (WorkFlowNode.OperationID n) = Deployment.GetStatusOk op ->
  Deployment.OpStatus op = Deployment.Finished ->
  pollLoop mp gs h ticks s nid d st =
    h (lookupTask st (NodeDefine.SuccessEvent d))
      (pollFinishedState nid m (Deployment.OpResult op) st).
Proof.
  induction m as [|m IH]; intros ticks s st Hs Hm Hmax Ht Hn Hr Ho Hf;
    (destruct ticks as [|t]; [lia|]).
  - rewrite Nat.add_0_r in Ho.
    rewrite (pollLoop_tick_finished t s nid d st n op) by (assumption || lia).
    simpl. unfold pollFinishedState, updateNode. f_equal; try reflexivity. state_eq st.
  - rewrite (pollLoop_tick_running mp gs h t s nid d st n) by
      (assumption || lia ||
       (rewrite <- (Nat.add_0_r (OracleCalls st)); apply Hr; lia)).
    rewrite (IH t (s + 1)); try lia; try assumption.
    + unfold pollFinishedState, updateNode. f_equal; try reflexivity. state_eq st.
    + intros j Hj. cbn [OracleCalls set_OracleCalls].
      replace (S (OracleCalls st) + j)%nat with (OracleCalls st + S j)%nat by lia.
      apply Hr. lia.
    + cbn [OracleCalls set_OracleCalls].
      replace (S (OracleCalls st) + m)%nat with (OracleCalls st + S m)%nat by lia.
      exact Ho.
Qed.
End PollingRuns.

Lemma handleTaskError_spec h nid d st :
  handleTaskError h nid d st =
    let st' := set_FlowError (Some (goErrorf
                 (match getNode nid st with Some n => WorkFlowNode.Result n | None => "" end))) st in
    if String.eqb (NodeDefine.FailEvent d) "" then Some st'
    else snd <$> h (lookupTask st (NodeDefine.FailEvent d)) st'.
Proof. unfold handleTaskError. by destruct (String.eqb (NodeDefine.FailEvent d) ""). Qed.

(** ** Claims *)

(** C1: [handle(nil)] returns success and marks the workflow Finished; it
    creates no node record, runs no executor and changes nothing else. *)
Theorem handle_nil_finishes mp gs fuel st :
  handle mp gs (S fuel) None st = Some (true, setFlowStatus WorkFlowStatusFinished st) /\
  WorkFlow.Status (Flow (setFlowStatus WorkFlowStatusFinished st)) = WorkFlowStatusFinished /\
  Heap (setFlowStatus WorkFlowStatusFinished st) = Heap st /\
  Nodes (setFlowStatus WorkFlowStatusFinished st) = Nodes st /\
  CurrentNode (setFlowStatus WorkFlowStatusFinished st) = CurrentNode st /\
  Db (setFlowStatus WorkFlowStatusFinished st) = Db st.
Proof. repeat split. Qed.

(** C5: a SyncFuncNode whose executor returns no error is marked success
    (Finished) and [handle] continues with the node named by its
    successEvent; when that name has no definition the run ends with
    success. *)
Theorem syncfunc_success_transitions mp gs fuel d st n' fd' :
  NodeDefine.ReturnType d = SyncFuncNode ->
  execOutcome d st = ExecReturn n' fd' None ->
  exists st2,
    let nid := length (Heap st) in
    let st3 := updateNode nid (WorkFlowNode.Success None) st2 in
    executeTask nid d (snd (allocNode d st)) = (None, st2) /\
    getNode nid st3 = Some (WorkFlowNode.Success None n') /\
    nodeStatus nid st3 = Some WorkFlowStatusFinished /\
    handle mp gs (S fuel) (Some d) st =
      handle mp gs fuel (lookupTask st (NodeDefine.SuccessEvent d)) st3 /\
    (lookupTask st (NodeDefine.SuccessEvent d) = None -> (0 < fuel)%nat ->
     handle mp gs (S fuel) (Some d) st = Some (true, setFlowStatus WorkFlowStatusFinished st3)).
Proof.
  intros Hrt Hex.
  destruct (run_node d st) as (st1 & st2 & Ha & He & Hg & HD & _).
  rewrite Hex in He, Hg. simpl in He, Hg.
  exists st2. cbv zeta. rewrite Ha. cbn [snd].
  assert (Hstep : handle mp gs (S fuel) (Some d) st =
            handle mp gs fuel (lookupTask st (NodeDefine.SuccessEvent d))
              (updateNode (length (Heap st)) (WorkFlowNode.Success None) st2)).
  { rewrite (handle_step_sync mp gs fuel d st _ st1 st2 Ha He Hrt). simpl.
    unfold lookupTask. simpl. by rewrite HD. }
  repeat split; try assumption.
  - by apply getNode_updateNode_eq.
  - unfold nodeStatus. by rewrite (getNode_updateNode_eq _ _ _ _ Hg).
  - intros Hnone Hf. rewrite Hstep, Hnone. destruct fuel; [lia|]. reflexivity.
Qed.

(** C6: when the executor returns an error, [handle] never goes to the
    successEvent: it calls the task-error handler, which records the
    node's result as the flow error and goes to the failEvent node when
    the failEvent is non-empty (otherwise it stops there), and [handle]
    returns false. *)
Theorem executor_error_takes_fail_path mp gs fuel d st n' fd' e :
  execOutcome d st = ExecReturn n' fd' (Some e) ->
  exists st2,
    let nid := length (Heap st) in
    let st2' := set_FlowError (Some (goErrorf (WorkFlowNode.Result (WorkFlowNode.Fail e n')))) st2 in
    executeTask nid d (snd (allocNode d st)) = (Some e, st2) /\
    nodeStatus nid st2 = Some WorkFlowStatusError /\
    handle mp gs (S fuel) (Some d) st =
      (fun s => (false, s)) <$> handleTaskError (handle mp gs fuel) nid d st2 /\
    (NodeDefine.FailEvent d <> "" ->
     handleTaskError (handle mp gs fuel) nid d st2 =
       snd <$> handle mp gs fuel (lookupTask st (NodeDefine.FailEvent d)) st2') /\
    (NodeDefine.FailEvent d = "" ->
     handleTaskError (handle mp gs fuel) nid d st2 = Some st2') /\
    (forall b s, handle mp gs (S fuel) (Some d) st = Some (b, s) -> b = false) /\
    (forall se, handle mp gs (S fuel) (Some (withSuccessEvent se d)) st =
                handle mp gs (S fuel) (Some d) st).
Proof.
  intros Hex.
  destruct (run_node d st) as (st1 & st2 & Ha & He & Hg & HD & _).
  rewrite Hex in He, Hg. simpl in He, Hg.
  exists st2. cbv zeta. rewrite Ha. cbn [snd].
  pose proof (handle_step_error mp gs fuel d st _ st1 e st2 Ha He) as Hstep.
  repeat split; try assumption.
  - unfold nodeStatus. by rewrite Hg.
  - intros Hne. rewrite handleTaskError_spec. cbv zeta. rewrite Hg.
    apply String.eqb_neq in Hne. rewrite Hne. unfold lookupTask. simpl. by rewrite HD.
  - intros Heq. rewrite handleTaskError_spec. cbv zeta. rewrite Hg, Heq. reflexivity.
  - intros b s. rewrite Hstep.
    destruct (handleTaskError _ _ _ _); simpl; congruence.
  - intros se. rewrite Hstep.
    change (allocNode (withSuccessEvent se d) st) with (allocNode d st) .
    rewrite (handle_step_error mp gs fuel (withSuccessEvent se d) st _ st1 e st2 Ha He).
    reflexivity.
Qed.

(** C7: a panicking executor is recovered by [executeTask]: the panic value
    becomes a [TIEM_PANIC] error, which fails the node and is returned, and
    [handle] goes on along the error path (task-error handler, false). *)
Theorem executor_panic_recovered mp gs fuel d st n' fd' r :
  execOutcome d st = ExecPanic n' fd' r ->
  exists st2,
    let nid := length (Heap st) in
    executeTask nid d (snd (allocNode d st)) = (Some (TiemError TIEM_PANIC r), st2) /\
    getNode nid st2 = Some (WorkFlowNode.Fail (TiemError TIEM_PANIC r) n') /\
    nodeStatus nid st2 = Some WorkFlowStatusError /\
    nodeResult nid st2 = Some (errorText (TiemError TIEM_PANIC r)) /\
    handle mp gs (S fuel) (Some d) st =
      (fun s => (false, s)) <$> handleTaskError (handle mp gs fuel) nid d st2.
Proof.
  intros Hex.
  destruct (run_node d st) as (st1 & st2 & Ha & He & Hg & _).
  rewrite Hex in He, Hg. simpl in He, Hg.
  exists st2. cbv zeta. rewrite Ha. cbn [snd].
  unfold nodeStatus, nodeResult. rewrite Hg.
  repeat split; try assumption.
  exact (handle_step_error mp gs fuel d st _ st1 _ st2 Ha He).
Qed.

(** C8: [destroy(reason)] sets the workflow to Canceled and fails the
    current node, if there is one, with a canceled error carrying
    [reason]; with no current node only the workflow status changes
    before the snapshot is persisted. *)
Theorem destroy_cancels reason st :
  WorkFlow.Status (Flow (destroy reason st)) = WorkFlowStatusCanceled /\
  (forall nid n, CurrentNode st = Some nid -> getNode nid st = Some n ->
     getNode nid (destroy reason st) =
       Some (WorkFlowNode.Fail (errors_NewError TIEM_TASK_CANCELED reason) n) /\
     nodeStatus nid (destroy reason st) = Some WorkFlowStatusError /\
     nodeResult nid (destroy reason st) =
       Some (errorText (errors_NewError TIEM_TASK_CANCELED reason)) /\
     (forall i, i <> nid -> getNode i (destroy reason st) = getNode i st)) /\
  (CurrentNode st = None ->
     destroy reason st = persistDetail (setFlowStatus WorkFlowStatusCanceled st)).
Proof.
  split; [| split].
  - unfold destroy. simpl. by destruct (CurrentNode st).
  - intros nid n Hc Hn.
    assert (Hg : getNode nid (destroy reason st) =
                 Some (WorkFlowNode.Fail (errors_NewError TIEM_TASK_CANCELED reason) n)).
    { unfold destroy. simpl. rewrite Hc.
      exact (getNode_updateNode_eq nid _ (setFlowStatus WorkFlowStatusCanceled st) n Hn). }
    unfold nodeStatus, nodeResult. rewrite Hg. repeat split.
    intros i Hi. unfold destroy. simpl. rewrite Hc.
    exact (getNode_updateNode_ne nid i _ (setFlowStatus WorkFlowStatusCanceled st) (not_eq_sym Hi)).
  - intros Hc. unfold destroy. simpl. by rewrite Hc.
Qed.

(** C3: a PollingNode whose executor returns no error and leaves the node
    unfinished, polled while the oracle always answers Running, queries the
    oracle exactly [maxPollingSequence] times; on the next tick the node
    fails with the polling time-out error, the task-error handler runs and
    [handle] returns false without a further query. *)
Theorem polling_node_times_out mp gs fuel d st n' fd' :
  0 <= mp < 2 ^ 31 - 1 -> mp < Z.of_nat fuel ->
  NodeDefine.ReturnType d = PollingNode ->
  execOutcome d st = ExecReturn n' fd' None ->
  WorkFlowNode.Status n' <> WorkFlowStatusFinished ->
  (forall k o, isRunning (gs k o) = true) ->
  exists st2,
    let nid := length (Heap st) in
    let stT := pollTimeoutState nid (Z.to_nat mp) st2 in
    executeTask nid d (snd (allocNode d st)) = (None, st2) /\
    OracleCalls stT = (OracleCalls st + Z.to_nat mp)%nat /\
    Clock stT = Clock st + 3 * (mp + 1) /\
    getNode nid stT =
      Some (WorkFlowNode.Fail (errors_Error TIEM_WORKFLOW_NODE_POLLING_TIME_OUT) n') /\
    handle mp gs (S fuel) (Some d) st =
      (fun s => (false, s)) <$> handleTaskError (handle mp gs fuel) nid d stT.
Proof.
  intros Hmp Hfuel Hrt Hex Hns Hrun.
  destruct (run_node d st) as (st1 & st2 & Ha & He & Hg & HD & HO & HC & _).
  rewrite Hex in He, Hg. simpl in He, Hg.
  exists st2. cbv zeta. rewrite Ha. cbn [snd].
  repeat split; try assumption.
  - unfold pollTimeoutState. simpl. lia.
  - unfold pollTimeoutState. simpl. rewrite Z2Nat.id by lia. lia.
  - unfold pollTimeoutState. apply getNode_updateNode_eq. exact Hg.
  - rewrite (handle_step_poll mp gs fuel d st _ st1 st2 Ha He Hrt)
      by (unfold nodeStatus; rewrite Hg; simpl; congruence).
    apply (pollLoop_runs_out mp gs _ _ d n' (Z.to_nat mp)); try lia; try assumption.
    intros j _. apply Hrun.
Qed.

(** C4: a PollingNode whose executor returns no error, polled while the
    oracle answers Running and then Finished at the K-th query
    (K <= maxPollingSequence), is marked success with the oracle's result
    as payload when it is non-empty and with no payload otherwise, and
    [handle] continues with the successEvent node and returns its
    result. *)
Theorem polling_node_finishes mp gs fuel d st n' fd' K op :
  (1 <= K)%nat -> Z.of_nat K <= mp -> mp < 2 ^ 31 - 1 -> (K <= fuel)%nat ->
  NodeDefine.ReturnType d = PollingNode ->
  execOutcome d st = ExecReturn n' fd' None ->
  WorkFlowNode.Status n' <> WorkFlowStatusFinished ->
  (forall j, (j < K - 1)%nat ->
     isRunning (gs (OracleCalls st + j)%nat (WorkFlowNode.OperationID n')) = true) ->
  gs (OracleCalls st + (K - 1))%nat (WorkFlowNode.OperationID n') = Deployment.GetStatusOk op ->
  Deployment.OpStatus op = Deployment.Finished ->
  exists st2,
    let nid := length (Heap st) in
    let stF := pollFinishedState nid (K - 1) (Deployment.OpResult op) st2 in
    executeTask nid d (snd (allocNode d st)) = (None, st2) /\
    getNode nid stF = Some (WorkFlowNode.Success (successPayload (Deployment.OpResult op)) n') /\
    nodeStatus nid stF = Some WorkFlowStatusFinished /\
    (Deployment.OpResult op <> "" ->
       nodeResult nid stF = Some (Deployment.OpResult op)) /\
    (Deployment.OpResult op = "" ->
       successPayload (Deployment.OpResult op) = None /\
       nodeResult nid stF = Some (WorkFlowNode.Result n')) /\
    OracleCalls stF = (OracleCalls st + K)%nat /\
    handle mp gs (S fuel) (Some d) st =
      handle mp gs fuel (lookupTask st (NodeDefine.SuccessEvent d)) stF.
Proof.
  intros HK1 HK Hmp Hfuel Hrt Hex Hns Hrun Hfin Hst.
  destruct (run_node d st) as (st1 & st2 & Ha & He & Hg & HD & HO & HC & _).
  rewrite Hex in He, Hg. simpl in He, Hg.
  exists st2. cbv zeta. rewrite Ha. cbn [snd].
  assert (HgF : getNode (length (Heap st)) (pollFinishedState (length (Heap st)) (K - 1)
                   (Deployment.OpResult op) st2) =
                Some (WorkFlowNode.Success (successPayload (Deployment.OpResult op)) n')).
  { unfold pollFinishedState. apply getNode_updateNode_eq. exact Hg. }
  unfold nodeStatus, nodeResult. rewrite HgF. cbn [fmap option_fmap option_map].
  split; [assumption|]. split; [reflexivity|].
  split; [unfold successPayload; by destruct (String.eqb _ _)|].
  split; [intros Hne; unfold successPayload; apply String.eqb_neq in Hne; by rewrite Hne|].
  split; [intros Heq; unfold successPayload; by rewrite Heq|].
  split; [unfold pollFinishedState; simpl; lia|].
  rewrite (handle_step_poll mp gs fuel d st _ st1 st2 Ha He Hrt)
    by (unfold nodeStatus; rewrite Hg; simpl; congruence).
  rewrite (pollLoop_finishes mp gs _ _ d n' op (K - 1) fuel 0 st2);
    try lia; try assumption.
  - unfold lookupTask. by rewrite HD.
  - intros j Hj. rewrite HO. by apply Hrun.
  - by rewrite HO.
Qed.

(** Updates that leave the node heap or the definition alone. *)
Lemma getNode_persistDetail i st : getNode i (persistDetail st) = getNode i st.
Proof. reflexivity. Qed.
Lemma getNode_setFlowStatus i s st : getNode i (setFlowStatus s st) = getNode i st.
Proof. reflexivity. Qed.
Lemma lookupTask_setFlowStatus s st x : lookupTask (setFlowStatus s st) x = lookupTask st x.
Proof. reflexivity. Qed.


(** C10 (as amended): a node definition whose returnType is neither
    SyncFuncNode nor PollingNode and whose executor returns no error makes
    [handle] return success at once: the node is not marked successful, no
    successor is looked up (changing the successEvent changes nothing), and
    the node record keeps the status the executor left it in. *)
Theorem other_return_type_stops mp gs fuel d st n' fd' :
  NodeDefine.ReturnType d <> SyncFuncNode ->
  NodeDefine.ReturnType d <> PollingNode ->
  execOutcome d st = ExecReturn n' fd' None ->
  exists st2,
    let nid := length (Heap st) in
    executeTask nid d (snd (allocNode d st)) = (None, st2) /\
    handle mp gs (S fuel) (Some d) st = Some (true, st2) /\
    getNode nid st2 = Some n' /\
    nodeStatus nid st2 = Some (WorkFlowNode.Status n') /\
    OracleCalls st2 = OracleCalls st /\
    (forall se, handle mp gs (S fuel) (Some (withSuccessEvent se d)) st = Some (true, st2)).
Proof.
  intros H1 H2 Hex.
  destruct (run_node d st) as (st1 & st2 & Ha & He & Hg & HD & HO & _).
  rewrite Hex in He, Hg. simpl in He, Hg.
  exists st2. cbv zeta. rewrite Ha. cbn [snd].
  unfold nodeStatus. rewrite Hg.
  split; [assumption|]. split; [exact (handle_step_other mp gs fuel d st _ st1 st2 Ha He H1 H2)|].
  split; [reflexivity|]. split; [reflexivity|]. split; [assumption|].
  intros se.
  exact (handle_step_other mp gs fuel (withSuccessEvent se d) st _ st1 st2 Ha He H1 H2).
Qed.


(** ** Frame of the engine's steps *)

Lemma executeTask_frame nid d st e st' :
  executeTask nid d st = (e, st') ->
  Nodes st' = Nodes st ++ [nid] /\ CurrentNode st' = Some nid /\
  length (Heap st') = length (Heap st) /\
  (forall i, i <> nid -> getNode i st' = getNode i st) /\
  FlowError st' = FlowError st /\ Define st' = Define st /\
  flowKey (Flow st') = flowKey (Flow st) /\
  WorkFlow.Status (Flow st') = WorkFlow.Status (Flow st) /\
  WorkFlow.Context (Flow st') = FlowDataOf st /\
  Db st' = Db st ++ [UpdateWorkFlowDetail (WorkFlow.with_context (FlowDataOf st) (Flow st))
                      (omap (fun i => Heap (updateNode nid WorkFlowNode.Processing st) !! i)
                         (Nodes st ++ [nid]))].
Proof.
  unfold executeTask. cbv zeta.
  destruct (getNode nid _) as [n|].
  2:{ intros H. injection H as <- <-. cbn. rewrite length_alter.
      repeat split; try reflexivity. intros i Hi. unfold getNode. cbn.
      by rewrite list_lookup_alter_ne. }
  destruct (NodeDefine.Executor d n _) as [n' fd [e0|] | n' fd r];
    intros H; injection H as <- <-; unfold getNode; cbn;
    rewrite ?length_alter; (repeat split); try reflexivity;
    intros i Hi; rewrite ?list_lookup_alter_ne; auto.
Qed.

Lemma allocNode_frame d st nid st1 :
  allocNode d st = (nid, st1) ->
  Nodes st1 = Nodes st /\ CurrentNode st1 = CurrentNode st /\
  Heap st1 = Heap st ++ [newNode d st] /\ FlowError st1 = FlowError st /\
  Define st1 = Define st /\ Flow st1 = Flow st /\
  Db st1 = Db st ++ [CreateWorkFlowNode (newNode d st)].
Proof. unfold allocNode. intros H. injection H as <- <-. repeat split. Qed.

Section Preserve.

(** A relation between the state before and after a call of [handle],
    kept by each step the engine takes. *)
Variable mp : Z.
Variable gs : nat -> string -> Deployment.Answer.
Variable R : State -> State -> Prop.
Hypothesis R_trans : forall a b c, R a b -> R b c -> R a c.
Hypothesis R_finish : forall s, R s (setFlowStatus WorkFlowStatusFinished s).
Hypothesis R_run : forall d s nid s1 e s2,
  allocNode d s = (nid, s1) -> executeTask nid d s1 = (e, s2) -> R s s2.
Hypothesis R_node : forall s0 s nid f,
  (length (Heap s0) <= nid)%nat -> R s0 s -> R s0 (updateNode nid f s).
Hypothesis R_error : forall s m, R s (set_FlowError (Some m) s).
Hypothesis R_clock : forall s t, R s (set_Clock t s).
Hypothesis R_calls : forall s k, R s (set_OracleCalls k s).

Lemma handleTaskError_preserves h s0 nid d s s' :
  (forall o x b x', h o x = Some (b, x') -> R x x') ->
  R s0 s -> handleTaskError h nid d s = Some s' -> R s0 s'.
Proof.
  intros Hh H0 H. rewrite handleTaskError_spec in H. cbv zeta in H.
  destruct (String.eqb _ _).
  - injection H as <-. eapply R_trans; [exact H0 | apply R_error].
  - destruct (h _ _) as [[b x']|] eqn:E; simpl in H; [|discriminate].
    injection H as <-. eapply R_trans; [exact H0|].
    eapply R_trans; [apply R_error | eapply Hh; exact E].
Qed.

Lemma pollLoop_preserves h s0 nid d :
  (length (Heap s0) <= nid)%nat ->
  (forall o x b x', h o x = Some (b, x') -> R x x') ->
  forall ticks sq s b s', R s0 s -> pollLoop mp gs h ticks sq nid d s = Some (b, s') -> R s0 s'.
Proof.
  intros Hn Hh ticks. induction ticks as [|t IH]; intros sq s b s' H0 H; [discriminate|].
  cbn [pollLoop] in H.
  assert (H1 : R s0 (set_Clock (Clock s + 3) s)) by (eapply R_trans; [exact H0 | apply R_clock]).
  assert (H2 : R s0 (set_OracleCalls (S (OracleCalls (set_Clock (Clock s + 3) s)))
                       (set_Clock (Clock s + 3) s)))
    by (eapply R_trans; [exact H1 | apply R_calls]).
  destruct (Z.gtb _ _).
  { destruct (handleTaskError _ _ _ _) as [x|] eqn:E; simpl in H; [|discriminate].
    injection H as _ <-. eapply handleTaskError_preserves; [exact Hh | | exact E].
    apply R_node; [exact Hn | exact H1]. }
  destruct (gs _ _) as [msg | op].
  { destruct (handleTaskError _ _ _ _) as [x|] eqn:E; simpl in H; [|discriminate].
    injection H as _ <-. eapply handleTaskError_preserves; [exact Hh | | exact E].
    apply R_node; [exact Hn | exact H2]. }
  destruct (Status_eqb _ Deployment.Error).
  { destruct (handleTaskError _ _ _ _) as [x|] eqn:E; simpl in H; [|discriminate].
    injection H as _ <-. eapply handleTaskError_preserves; [exact Hh | | exact E].
    apply R_node; [exact Hn | exact H2]. }
  destruct (Status_eqb _ Deployment.Finished).
  { destruct (negb _); (eapply R_trans; [| eapply Hh; exact H]);
      (apply R_node; [exact Hn | exact H2]). }
  eapply IH; [exact H2 | exact H].
Qed.

Lemma handle_preserves :
  forall fuel o s b s', handle mp gs fuel o s = Some (b, s') -> R s s'.
Proof.
  induction fuel as [|f IH]; intros o s b s' H; [discriminate|].
  destruct o as [d|].
  2:{ cbn [handle] in H. injection H as _ <-. apply R_finish. }
  destruct (allocNode d s) as [nid s1] eqn:Ha.
  destruct (allocNode_spec _ _ _ _ Ha) as (Hnid & _).
  destruct (executeTask nid d s1) as [e s2] eqn:He.
  pose proof (R_run _ _ _ _ _ _ Ha He) as H2.
  cbn [handle] in H. rewrite Ha, He in H.
  destruct e as [e|].
  - destruct (handleTaskError _ _ _ _) as [x|] eqn:E; simpl in H; [|discriminate].
    injection H as _ <-. eapply handleTaskError_preserves; [exact IH | exact H2 | exact E].
  - destruct (String.eqb _ SyncFuncNode).
    + eapply R_trans; [| eapply IH; exact H]. apply R_node; [lia | exact H2].
    + destruct (String.eqb _ PollingNode).
      * destruct (decide _).
        -- eapply R_trans; [exact H2 | eapply IH; exact H].
        -- eapply pollLoop_preserves; [| exact IH | exact H2 | exact H]. lia.
      * injection H as _ <-. exact H2.
Qed.

End Preserve.

(** ** More of the engine *)

Lemma FlowError_sticky mp gs :
  forall fuel o s b s', handle mp gs fuel o s = Some (b, s') ->
  FlowError s <> None -> FlowError s' <> None.
Proof.
  apply (handle_preserves mp gs (fun s s' => FlowError s <> None -> FlowError s' <> None));
    try (intros; cbn; tauto).
  - intros d s nid s1 e s2 Ha He.
    destruct (allocNode_frame _ _ _ _ Ha) as (_ & _ & _ & HF1 & _).
    destruct (executeTask_frame _ _ _ _ _ He) as (_ & _ & _ & _ & HF2 & _).
    congruence.
  - intros s m _. cbn. discriminate.
Qed.

Lemma handleTaskError_sets h nid d s s' :
  (forall o x b x', h o x = Some (b, x') -> FlowError x <> None -> FlowError x' <> None) ->
  handleTaskError h nid d s = Some s' -> FlowError s' <> None.
Proof.
  intros Hh H. rewrite handleTaskError_spec in H. cbv zeta in H.
  destruct (String.eqb _ _).
  - injection H as <-. cbn. discriminate.
  - destruct (h _ _) as [[b x']|] eqn:E; simpl in H; [|discriminate].
    injection H as <-. eapply Hh; [exact E | cbn; discriminate].
Qed.

Section Tracks.
Variable mp : Z.
Variable gs : nat -> string -> Deployment.Answer.

Lemma pollLoop_tracks h nid d :
  (forall o x b x', h o x = Some (b, x') ->
     (b = true -> FlowError x' = FlowError x) /\ (b = false -> FlowError x' <> None)) ->
  (forall o x b x', h o x = Some (b, x') -> FlowError x <> None -> FlowError x' <> None) ->
  forall ticks sq s b s', pollLoop mp gs h ticks sq nid d s = Some (b, s') ->
  (b = true -> FlowError s' = FlowError s) /\ (b = false -> FlowError s' <> None).
Proof.
  intros Ht Hs ticks. induction ticks as [|t IH]; intros sq s b s' H; [discriminate|].
  cbn [pollLoop] in H.
  destruct (Z.gtb _ _).
  { destruct (handleTaskError _ _ _ _) as [x|] eqn:E; simpl in H; [|discriminate].
    injection H as <- <-. split; [discriminate|]. intros _.
    eapply handleTaskError_sets; [exact Hs | exact E]. }
  destruct (gs _ _) as [msg | op].
  { destruct (handleTaskError _ _ _ _) as [x|] eqn:E; simpl in H; [|discriminate].
    injection H as <- <-. split; [discriminate|]. intros _.
    eapply handleTaskError_sets; [exact Hs | exact E]. }
  destruct (Status_eqb _ Deployment.Error).
  { destruct (handleTaskError _ _ _ _) as [x|] eqn:E; simpl in H; [|discriminate].
    injection H as <- <-. split; [discriminate|]. intros _.
    eapply handleTaskError_sets; [exact Hs | exact E]. }
  destruct (Status_eqb _ Deployment.Finished).
  { destruct (negb _); destruct (Ht _ _ _ _ H) as [H1 H2];
      (split; [intros Hb; rewrite (H1 Hb); reflexivity | exact H2]). }
  destruct (IH _ _ _ _ H) as [H1 H2].
  split; [intros Hb; rewrite (H1 Hb); reflexivity | exact H2].
Qed.

Lemma handle_tracks :
  forall fuel o s b s', handle mp gs fuel o s = Some (b, s') ->
  (b = true -> FlowError s' = FlowError s) /\ (b = false -> FlowError s' <> None).
Proof.
  induction fuel as [|f IH]; intros o s b s' H; [discriminate|].
  destruct o as [d|].
  2:{ cbn [handle] in H. injection H as <- <-. split; [reflexivity | discriminate]. }
  destruct (allocNode d s) as [nid s1] eqn:Ha.
  destruct (allocNode_frame _ _ _ _ Ha) as (_ & _ & _ & HF1 & _).
  destruct (executeTask nid d s1) as [e s2] eqn:He.
  destruct (executeTask_frame _ _ _ _ _ He) as (_ & _ & _ & _ & HF2 & _).
  cbn [handle] in H. rewrite Ha, He in H.
  destruct e as [e|].
  - destruct (handleTaskError _ _ _ _) as [x|] eqn:E; simpl in H; [|discriminate].
    injection H as <- <-. split; [discriminate|]. intros _.
    eapply handleTaskError_sets; [exact (FlowError_sticky mp gs f) | exact E].
  - destruct (String.eqb _ SyncFuncNode).
    + destruct (IH _ _ _ _ H) as [H1 H2].
      split; [intros Hb; rewrite (H1 Hb); cbn; congruence | exact H2].
    + destruct (String.eqb _ PollingNode).
      * destruct (decide _).
        -- destruct (IH _ _ _ _ H) as [H1 H2].
           split; [intros Hb; rewrite (H1 Hb); congruence | exact H2].
        -- destruct (pollLoop_tracks _ _ _ IH (FlowError_sticky mp gs f) _ _ _ _ _ H)
             as [H1 H2].
           split; [intros Hb; rewrite (H1 Hb); congruence | exact H2].
      * injection H as <- <-. split; [intros _; congruence | discriminate].
Qed.

End Tracks.

Lemma pollLoop_tick_fail (mp : Z) (gs : nat -> string -> Deployment.Answer) (h : option NodeDefine.t -> State -> option (bool * State))
    t s nid d st n msg :
  - 2 ^ 31 <= s + 1 < 2 ^ 31 -> s + 1 <= mp ->
  getNode nid st = Some n ->
  failMessage (gs (OracleCalls st) (WorkFlowNode.OperationID n)) = Some msg ->
  pollLoop mp gs h (S t) s nid d st =
    (fun x => (false, x)) <$> handleTaskError h nid d
      (updateNode nid (WorkFlowNode.Fail (errors_NewError TIEM_TASK_FAILED msg))
         (set_OracleCalls (S (OracleCalls st)) (set_Clock (Clock st + 3) st))).
Proof.
  intros H1 H2 Hn Hf. cbn [pollLoop]. rewrite int32_wrap_small by lia.
  destruct (Z.gtb_spec (s + 1) mp); [lia |].
  change (getNode nid (set_Clock (Clock st + 3) st)) with (getNode nid st).
  rewrite Hn. cbn [OracleCalls set_Clock].
  destruct (gs (OracleCalls st) (WorkFlowNode.OperationID n)) as [m | [[] r e]];
    cbn in Hf; try discriminate; injection Hf as <-; reflexivity.
Qed.

Lemma pollLoop_fails (mp : Z) (gs : nat -> string -> Deployment.Answer) (h : option NodeDefine.t -> State -> option (bool * State))
    nid d n msg m :
  forall ticks s st,
  0 <= s -> s + Z.of_nat m + 1 <= mp -> mp < 2 ^ 31 - 1 -> (m < ticks)%nat ->
  getNode nid st = Some n ->
  (forall j, (j < m)%nat -> isRunning (gs (OracleCalls st + j)%nat (WorkFlowNode.OperationID n)) = true) ->
  failMessage (gs (OracleCalls st + m)%nat (WorkFlowNode.OperationID n)) = Some msg ->
  pollLoop mp gs h ticks s nid d st =
    (fun x => (false, x)) <$> handleTaskError h nid d (pollFailedState nid m msg st).
Proof.
  induction m as [|m IH]; intros ticks s st Hs Hm Hmax Ht Hn Hr Hf;
    (destruct ticks as [|t]; [lia|]).
  - rewrite Nat.add_0_r in Hf.
    rewrite (pollLoop_tick_fail mp gs h t s nid d st n msg) by (assumption || lia).
    unfold pollFailedState, updateNode. f_equal. f_equal. state_eq st.
  - rewrite (pollLoop_tick_running mp gs h t s nid d st n) by
      (assumption || lia ||
       (rewrite <- (Nat.add_0_r (OracleCalls st)); apply Hr; lia)).
    rewrite (IH t (s + 1)); try lia; try assumption.
    + unfold pollFailedState, updateNode. f_equal. f_equal. state_eq st.
    + intros j Hj. cbn [OracleCalls set_OracleCalls].
      replace (S (OracleCalls st) + j)%nat with (OracleCalls st + S j)%nat by lia.
      apply Hr. lia.
    + cbn [OracleCalls set_OracleCalls].
      replace (S (OracleCalls st) + m)%nat with (OracleCalls st + S m)%nat by lia.
      exact Hf.
Qed.

Lemma int32_wrap_range z : - 2 ^ 31 <= int32_wrap z < 2 ^ 31.
Proof.
  unfold int32_wrap. pose proof (Z.mod_pos_bound (z + 2 ^ 31) (2 ^ 32)). lia.
Qed.

Lemma pollLoop_never_times_out (mp : Z) (gs : nat -> string -> Deployment.Answer) (h : option NodeDefine.t -> State -> option (bool * State))
    nid d n :
  2 ^ 31 - 1 <= mp ->
  (forall k o, isRunning (gs k o) = true) ->
  forall ticks s st, getNode nid st = Some n -> pollLoop mp gs h ticks s nid d st = None.
Proof.
  intros Hmp Hr ticks. induction ticks as [|t IH]; intros s st Hn; [reflexivity|].
  cbn [pollLoop].
  pose proof (int32_wrap_range (s + 1)).
  destruct (Z.gtb_spec (int32_wrap (s + 1)) mp); [lia|].
  change (getNode nid (set_Clock (Clock st + 3) st)) with (getNode nid st).
  rewrite Hn. cbn [OracleCalls set_Clock].
  specialize (Hr (OracleCalls st) (WorkFlowNode.OperationID n)).
  destruct (gs (OracleCalls st) (WorkFlowNode.OperationID n)) as [m | [[] r e]];
    try discriminate.
  apply IH. exact Hn.
Qed.

Lemma goErrorf_plain s : (forall i, String.get i s <> Some "%"%char) -> goErrorf s = s.
Proof.
  induction s as [|c s IH]; intros H; [reflexivity|].
  cbn [goErrorf]. destruct (Ascii.eqb_spec c "%"%char) as [->|Hc].
  - exfalso. apply (H 0%nat). reflexivity.
  - f_equal. apply IH. intros i. exact (H (S i)).
Qed.



(** ** Further properties of the engine *)





(** When the history lists the node records in creation order
    ([Nodes] is 0, 1, ..., one per heap record), start keeps it so: every
    node record handle creates is appended to the history exactly once,
    in the order the nodes ran. *)
Theorem start_history_in_creation_order mp gs fuel st stF :
  start mp gs fuel st = Some stF ->
  Nodes st = seq 0 (length (Heap st)) ->
  Nodes stF = seq 0 (length (Heap stF)).
Proof.
  unfold start. cbv zeta.
  destruct (handle _ _ _ _ _) as [[b s']|] eqn:E; [|discriminate].
  intros H. injection H as <-. intros H0.
  assert (Hs : Nodes s' = seq 0 (length (Heap s'))).
  { refine (handle_preserves mp gs
      (fun s s' => Nodes s = seq 0 (length (Heap s)) -> Nodes s' = seq 0 (length (Heap s')))
      _ _ _ _ _ _ _ _ _ _ _ _ E H0); try (intros; cbn; tauto).
    - intros d s nid s1 e s2 Ha He Hs.
      destruct (allocNode_frame _ _ _ _ Ha) as (HN1 & _ & HH1 & _).
      destruct (allocNode_spec _ _ _ _ Ha) as (-> & _).
      destruct (executeTask_frame _ _ _ _ _ He) as (HN2 & _ & HL2 & _).
      rewrite HN2, HL2, HN1, HH1, Hs, length_app. cbn.
      rewrite Nat.add_1_r, seq_S. reflexivity.
    - intros s0 s nid f _ H Hs. unfold updateNode. cbn. rewrite length_alter. auto. }
  destruct b; exact Hs.
Qed.

(** handle never changes a node record that existed before it was called:
    it only appends records and updates the ones it created, so a failed
    node stays failed while its fail-event node runs. *)
Theorem handle_keeps_earlier_nodes mp gs fuel o st b st' :
  handle mp gs fuel o st = Some (b, st') ->
  (length (Heap st) <= length (Heap st'))%nat /\
  (forall i, (i < length (Heap st))%nat -> getNode i st' = getNode i st).
Proof.
  apply (handle_preserves mp gs
    (fun s s' => (length (Heap s) <= length (Heap s'))%nat /\
                 (forall i, (i < length (Heap s))%nat -> getNode i s' = getNode i s)));
    try (intros; cbn; split; [lia | intros; reflexivity]).
  - intros a x c [H1 H2] [H3 H4]. split; [lia|]. intros i Hi.
    rewrite H4 by lia. by apply H2.
  - intros d s nid s1 e s2 Ha He.
    destruct (allocNode_spec _ _ _ _ Ha) as (-> & _ & _ & _ & _ & _ & HL1 & Hold).
    destruct (executeTask_frame _ _ _ _ _ He) as (_ & _ & HL2 & Hoth & _).
    split; [lia|]. intros i Hi. rewrite Hoth by lia. by apply Hold.
  - intros s0 s nid f Hn [H1 H2]. rewrite length_Heap_updateNode.
    split; [exact H1|]. intros i Hi. rewrite getNode_updateNode_ne by lia. by apply H2.
Qed.

(** After start, CurrentNode points to the last node of the history (it is
    never reset), so a later destroy fails that node with the canceled
    error even when it has already finished. *)
Theorem start_leaves_last_node_current mp gs fuel st stF reason :
  start mp gs fuel st = Some stF ->
  CurrentNode st = last (Nodes st) ->
  CurrentNode stF = last (Nodes stF) /\
  (forall nid n, last (Nodes stF) = Some nid -> getNode nid stF = Some n ->
     getNode nid (destroy reason stF) =
       Some (WorkFlowNode.Fail (errors_NewError TIEM_TASK_CANCELED reason) n)).
Proof.
  unfold start. cbv zeta.
  destruct (handle _ _ _ _ _) as [[b s']|] eqn:E; [|discriminate].
  intros H. injection H as <-. intros H0.
  assert (Hs : CurrentNode s' = last (Nodes s')).
  { refine (handle_preserves mp gs
      (fun s s' => CurrentNode s = last (Nodes s) -> CurrentNode s' = last (Nodes s'))
      _ _ _ _ _ _ _ _ _ _ _ _ E H0); try (intros; cbn; tauto).
    - intros d s nid s1 e s2 Ha He _.
      destruct (executeTask_frame _ _ _ _ _ He) as (HN2 & HC2 & _).
      rewrite HN2, HC2, last_snoc. reflexivity. }
  assert (Hc : CurrentNode (persistDetail (complete b s')) = last (Nodes (persistDetail (complete b s'))))
    by (destruct b; exact Hs).
  split; [exact Hc|].
  intros nid n Hl Hn. unfold destroy. cbv zeta.
  change (CurrentNode (setFlowStatus WorkFlowStatusCanceled (persistDetail (complete b s'))))
    with (CurrentNode (persistDetail (complete b s'))).
  rewrite Hc, Hl. rewrite getNode_persistDetail.
  apply getNode_updateNode_eq. rewrite getNode_setFlowStatus. exact Hn.
Qed.

(** handle only appends to the log of persistence writes, never changes
    the workflow definition or the identity (ID, BizID, tenant) of the
    workflow record, and every node record it creates is written as
    Initializing, with the workflow's ID as parent and the workflow's
    BizID and tenant. *)
Theorem handle_only_appends_writes mp gs fuel o st b st' :
  handle mp gs fuel o st = Some (b, st') ->
  Define st' = Define st /\ flowKey (Flow st') = flowKey (Flow st) /\
  exists l, Db st' = Db st ++ l /\ Forall (createdUnder (Flow st)) l.
Proof.
  apply (handle_preserves mp gs
    (fun s s' => Define s' = Define s /\ flowKey (Flow s') = flowKey (Flow s) /\
       exists l, Db s' = Db s ++ l /\ Forall (createdUnder (Flow s)) l));
    try (intros; cbn; split; [reflexivity|]; split; [reflexivity|];
         exists []; split; [by rewrite app_nil_r | constructor]).
  - intros a x c (HD1 & HK1 & l1 & Hl1 & HF1) (HD2 & HK2 & l2 & Hl2 & HF2).
    split; [congruence|]. split; [congruence|].
    exists (l1 ++ l2). split; [by rewrite Hl2, Hl1, app_assoc|].
    apply Forall_app. split; [exact HF1|].
    eapply Forall_impl; [exact HF2|]. intros [w'|n|w' ns]; cbn; [tauto| |tauto].
    unfold flowKey in HK1. injection HK1 as -> -> ->. tauto.
  - intros d s nid s1 e s2 Ha He.
    destruct (allocNode_frame _ _ _ _ Ha) as (_ & _ & _ & _ & HD1 & HW1 & HDb1).
    destruct (executeTask_frame _ _ _ _ _ He) as (_ & _ & _ & _ & _ & HD2 & HK2 & _ & _ & HDb2).
    split; [congruence|]. split; [rewrite HK2, HW1; reflexivity|].
    eexists. split; [rewrite HDb2, HDb1, <- app_assoc; reflexivity|].
    repeat constructor.
  - intros s0 s nid f _ H. exact H.
Qed.

(** A call of handle that returns true leaves FlowError as it found it (no
    task-error handler ran); one that returns false has set FlowError. *)
Theorem handle_failure_sets_FlowError mp gs fuel o st b st' :
  handle mp gs fuel o st = Some (b, st') ->
  (b = true -> FlowError st' = FlowError st) /\ (b = false -> FlowError st' <> None).
Proof. apply handle_tracks. Qed.

(** start always ends with the workflow Finished or Error, Error exactly
    when a task error was recorded in FlowError (for an aggregation
    without one); its last persistence write is the final workflow record
    with its node history. *)
Theorem start_final_state mp gs fuel st stF :
  start mp gs fuel st = Some stF -> FlowError st = None ->
  ((WorkFlow.Status (Flow stF) = WorkFlowStatusFinished /\ FlowError stF = None) \/
   (WorkFlow.Status (Flow stF) = WorkFlowStatusError /\ FlowError stF <> None)) /\
  exists l, Db stF = l ++ [UpdateWorkFlowDetail (Flow stF)
                             (omap (fun i => Heap stF !! i) (Nodes stF))].
Proof.
  unfold start. cbv zeta.
  destruct (handle _ _ _ _ _) as [[b s']|] eqn:E; [|discriminate].
  intros H. injection H as <-. intros H0.
  destruct (handle_tracks mp gs _ _ _ _ _ E) as [Ht Hf].
  destruct b.
  - split; [left; split; [reflexivity | change (FlowError s' = None); rewrite (Ht eq_refl); exact H0]|].
    eexists. reflexivity.
  - split; [right; split; [reflexivity | exact (Hf eq_refl)]|].
    eexists. reflexivity.
Qed.

(** A definition without a "start" node: start creates no node, marks the
    workflow Finished and writes the detail once. *)
Theorem start_without_start_node mp gs fuel st :
  lookupTask st "start" = None ->
  start mp gs (S fuel) st = Some (persistDetail (setFlowStatus WorkFlowStatusFinished st)).
Proof.
  intros H. unfold start. cbv zeta. rewrite lookupTask_setFlowStatus, H.
  cbn [handle]. unfold complete, setFlowStatus, set_Flow. destruct st as [w]. destruct w.
  reflexivity.
Qed.

(** When the executor of the start node fails (returns an error or
    panics), start ends with the workflow in Error, whatever its fail
    event does. *)
Theorem start_node_failure_ends_error mp gs fuel st ds stF :
  lookupTask st "start" = Some ds ->
  outcomeError (execOutcome ds (setFlowStatus WorkFlowStatusProcessing st)) <> None ->
  start mp gs fuel st = Some stF ->
  WorkFlow.Status (Flow stF) = WorkFlowStatusError.
Proof.
  intros Hs Ho. unfold start. cbv zeta. rewrite lookupTask_setFlowStatus, Hs.
  destruct fuel as [|f]; [discriminate|].
  destruct (run_node ds (setFlowStatus WorkFlowStatusProcessing st))
    as (st1 & st2 & Ha & He & _).
  destruct (outcomeError (execOutcome ds (setFlowStatus WorkFlowStatusProcessing st)))
    as [e|] eqn:Eo; [|contradiction].
  rewrite (handle_step_error mp gs f ds _ _ st1 e st2 Ha He).
  destruct (handleTaskError _ _ _ _) as [x|]; simpl; [|discriminate].
  intros H. injection H as <-. reflexivity.
Qed.

(** A PollingNode whose executor already marked it Finished goes straight
    to its success event: the status oracle is not queried and no tick
    elapses. *)
Theorem polling_node_finished_by_executor mp gs fuel d st n' fd' :
  NodeDefine.ReturnType d = PollingNode ->
  execOutcome d st = ExecReturn n' fd' None ->
  WorkFlowNode.Status n' = WorkFlowStatusFinished ->
  exists st2,
    handle mp gs (S fuel) (Some d) st =
      handle mp gs fuel (lookupTask st (NodeDefine.SuccessEvent d)) st2 /\
    OracleCalls st2 = OracleCalls st /\ Clock st2 = Clock st /\
    nodeStatus (length (Heap st)) st2 = Some WorkFlowStatusFinished.
Proof.
  intros Hrt Hex Hfin.
  destruct (run_node d st) as (st1 & st2 & Ha & He & Hg & HD & HO & HC & _).
  rewrite Hex in He, Hg. simpl in He, Hg.
  assert (Hs : nodeStatus (length (Heap st)) st2 = Some WorkFlowStatusFinished)
    by (unfold nodeStatus; rewrite Hg; simpl; congruence).
  exists st2. split; [|split; [exact HO | split; [exact HC | exact Hs]]].
  cbn [handle]. rewrite Ha, He, Hrt. cbn -[handle decide].
  rewrite decide_True by exact Hs.
  unfold lookupTask. by rewrite HD.
Qed.

(** A PollingNode whose status query fails, or reports the operation in
    Error, at the K-th query (after K-1 Running answers, K at most the
    maximum sequence) is failed with TIEM_TASK_FAILED and the message of
    that answer, K queries are made in all, and handle returns false after
    the task-error handler. *)
Theorem polling_node_fails_on_answer mp gs fuel d st n' fd' K msg :
  (1 <= K)%nat -> Z.of_nat K <= mp -> mp < 2 ^ 31 - 1 -> (K <= fuel)%nat ->
  NodeDefine.ReturnType d = PollingNode ->
  execOutcome d st = ExecReturn n' fd' None ->
  WorkFlowNode.Status n' <> WorkFlowStatusFinished ->
  (forall j, (j < K - 1)%nat ->
     isRunning (gs (OracleCalls st + j)%nat (WorkFlowNode.OperationID n')) = true) ->
  failMessage (gs (OracleCalls st + (K - 1))%nat (WorkFlowNode.OperationID n')) = Some msg ->
  exists st2,
    let nid := length (Heap st) in
    let stE := pollFailedState nid (K - 1) msg st2 in
    getNode nid stE =
      Some (WorkFlowNode.Fail (errors_NewError TIEM_TASK_FAILED msg) n') /\
    OracleCalls stE = (OracleCalls st + K)%nat /\
    handle mp gs (S fuel) (Some d) st =
      (fun s => (false, s)) <$> handleTaskError (handle mp gs fuel) nid d stE.
Proof.
  intros HK1 HK Hmp Hfuel Hrt Hex Hns Hrun Hf.
  destruct (run_node d st) as (st1 & st2 & Ha & He & Hg & HD & HO & HC & _).
  rewrite Hex in He, Hg. simpl in He, Hg.
  exists st2. cbv zeta.
  split; [unfold pollFailedState; apply getNode_updateNode_eq; exact Hg|].
  split; [unfold pollFailedState; simpl; lia|].
  rewrite (handle_step_poll mp gs fuel d st _ st1 st2 Ha He Hrt)
    by (unfold nodeStatus; rewrite Hg; simpl; congruence).
  rewrite (pollLoop_fails mp gs _ _ d n' msg (K - 1) fuel 0 st2);
    try lia; try assumption.
  - reflexivity.
  - intros j Hj. rewrite HO. by apply Hrun.
  - by rewrite HO.
Qed.

(** With maxPollingSequence at the int32 maximum, the int32 counter wraps
    before it can exceed the maximum: a PollingNode whose operation stays
    Running is polled forever (handle returns within no bound). *)
Theorem polling_never_times_out_at_max_int32 mp gs fuel d st n' fd' :
  2 ^ 31 - 1 <= mp ->
  NodeDefine.ReturnType d = PollingNode ->
  execOutcome d st = ExecReturn n' fd' None ->
  WorkFlowNode.Status n' <> WorkFlowStatusFinished ->
  (forall k o, isRunning (gs k o) = true) ->
  handle mp gs fuel (Some d) st = None.
Proof.
  intros Hmp Hrt Hex Hns Hr.
  destruct fuel as [|f]; [reflexivity|].
  destruct (run_node d st) as (st1 & st2 & Ha & He & Hg & _).
  rewrite Hex in He, Hg. simpl in He, Hg.
  rewrite (handle_step_poll mp gs f d st _ st1 st2 Ha He Hrt)
    by (unfold nodeStatus; rewrite Hg; simpl; congruence).
  eapply pollLoop_never_times_out; eassumption.
Qed.

(** handleTaskError records the failed node's result in FlowError through
    fmt.Errorf, which leaves a result without '%' unchanged; it then runs
    the fail event's node, if one is named. *)
Theorem handleTaskError_keeps_plain_result h nid d st n :
  getNode nid st = Some n ->
  (forall i, String.get i (WorkFlowNode.Result n) <> Some "%"%char) ->
  handleTaskError h nid d st =
    let st' := set_FlowError (Some (WorkFlowNode.Result n)) st in
    if String.eqb (NodeDefine.FailEvent d) "" then Some st'
    else snd <$> h (lookupTask st (NodeDefine.FailEvent d)) st'.
Proof.
  intros Hn Hp. rewrite handleTaskError_spec, Hn. cbv zeta.
  by rewrite goErrorf_plain.
Qed.

(** ** Runs on concrete definitions *)

Import Samples.

(** The spec's scenario: two synchronous nodes end Finished, with two node
    records in order. *)
Example twoSync_run :
  match start 3 alwaysRunning 5 (instance twoSync) with
  | Some st => WorkFlow.Status (Flow st) = WorkFlowStatusFinished /\
               Nodes st = [0; 1]%nat /\
               map WorkFlowNode.Name (Heap st) = ["start"; "create_success"]
  | None => False
  end.
Proof. vm_compute. repeat split. Qed.

(** A polling node with maximum sequence 3 and an oracle that keeps
    answering Running fails on the 4th tick, 12 seconds in, after 3
    queries. *)
Example polling_timeout_run :
  match handle 3 alwaysRunning 11 (Some pollStart) (instance polling) with
  | Some (b, st) => b = false /\ Clock st = 12 /\ OracleCalls st = 3%nat /\
                    nodeStatus 0 st = Some WorkFlowStatusError
  | None => False
  end.
Proof. vm_compute. repeat split. Qed.

(** ** Witnesses and counterexamples *)

Lemma syncfunc_success_transitions_witness :
  NodeDefine.ReturnType syncStart = SyncFuncNode /\
  execOutcome syncStart (instance twoSync) =
    ExecReturn (WorkFlowNode.Processing (newNode syncStart (instance twoSync))) ∅ None /\
  exists st2,
    executeTask 0 syncStart (snd (allocNode syncStart (instance twoSync))) = (None, st2) /\
    nodeStatus 0 (updateNode 0 (WorkFlowNode.Success None) st2) = Some WorkFlowStatusFinished.
Proof.
  split; [reflexivity|]. split; [reflexivity|].
  destruct (syncfunc_success_transitions 3 alwaysRunning 2 syncStart (instance twoSync) _ _
              eq_refl eq_refl) as (st2 & H1 & _ & H3 & _).
  exists st2. split; [exact H1 | exact H3].
Defined.

Lemma executor_error_takes_fail_path_witness :
  execOutcome failingStart (instance failPath) =
    ExecReturn (WorkFlowNode.Processing (newNode failingStart (instance failPath))) ∅
      (Some (PlainError "boom")) /\
  exists st2,
    nodeStatus 0 st2 = Some WorkFlowStatusError /\
    handle 3 alwaysRunning 3 (Some failingStart) (instance failPath) =
      (fun s => (false, s)) <$> handleTaskError (handle 3 alwaysRunning 2) 0 failingStart st2.
Proof.
  split; [reflexivity|].
  destruct (executor_error_takes_fail_path 3 alwaysRunning 2 failingStart (instance failPath)
              _ _ _ eq_refl) as (st2 & _ & H2 & H3 & _).
  exists st2. split; [exact H2 | exact H3].
Defined.

Lemma executor_panic_recovered_witness :
  execOutcome panicStart (instance (define "panic" [panicStart])) =
    ExecPanic (WorkFlowNode.Processing (newNode panicStart (instance (define "panic" [panicStart]))))
      ∅ "nil map" /\
  exists st2,
    nodeStatus 0 st2 = Some WorkFlowStatusError /\
    nodeResult 0 st2 = Some "[TIEM_PANIC] nil map".
Proof.
  split; [reflexivity|].
  destruct (executor_panic_recovered 3 alwaysRunning 2 panicStart
              (instance (define "panic" [panicStart])) _ _ _ eq_refl)
    as (st2 & _ & _ & H3 & H4 & _).
  exists st2. split; [exact H3 | exact H4].
Defined.

Lemma destroy_cancels_witness :
  CurrentNode runningInstance = Some 0%nat /\
  WorkFlow.Status (Flow (destroy "user canceled" runningInstance)) = WorkFlowStatusCanceled /\
  nodeResult 0 (destroy "user canceled" runningInstance) =
    Some "[TIEM_TASK_CANCELED] user canceled".
Proof.
  destruct (destroy_cancels "user canceled" runningInstance) as (H1 & H2 & _).
  split; [reflexivity|]. split; [exact H1|].
  destruct (H2 0%nat _ eq_refl eq_refl) as (_ & _ & H & _). exact H.
Defined.

Lemma polling_node_times_out_witness :
  exists st2,
    OracleCalls (pollTimeoutState 0 3 st2) = 3%nat /\
    Clock (pollTimeoutState 0 3 st2) = 12 /\
    handle 3 alwaysRunning 11 (Some pollStart) (instance polling) =
      (fun s => (false, s)) <$>
        handleTaskError (handle 3 alwaysRunning 10) 0 pollStart (pollTimeoutState 0 3 st2).
Proof.
  destruct (polling_node_times_out 3 alwaysRunning 10 pollStart (instance polling) _ _
              ltac:(lia) ltac:(reflexivity) eq_refl eq_refl ltac:(discriminate)
              (fun _ _ => eq_refl)) as (st2 & _ & HO & HC & _ & Hh).
  exists st2. split; [exact HO|]. split; [exact HC | exact Hh].
Defined.

Lemma polling_node_finishes_witness :
  exists st2,
    nodeStatus 0 (pollFinishedState 0 2 "ok" st2) = Some WorkFlowStatusFinished /\
    nodeResult 0 (pollFinishedState 0 2 "ok" st2) = Some "ok" /\
    OracleCalls (pollFinishedState 0 2 "ok" st2) = 3%nat.
Proof.
  destruct (polling_node_finishes 3 (finishesThird "ok") 10 pollStart (instance polling) _ _ 3
              (Deployment.mkOp Deployment.Finished "ok" "")
              ltac:(lia) ltac:(lia) ltac:(lia) ltac:(lia) eq_refl eq_refl ltac:(discriminate)
              ltac:(intros [|[|j]] Hj; [reflexivity | reflexivity | lia])
              eq_refl eq_refl) as (st2 & _ & _ & H2 & H3 & _ & H5 & _).
  exists st2. split; [exact H2|]. split; [apply H3; discriminate | exact H5].
Defined.



Lemma other_return_type_stops_witness :
  exists st2,
    handle 3 alwaysRunning 3 (Some asyncStart) (instance (define "async" [asyncStart])) =
      Some (true, st2) /\
    nodeStatus 0 st2 = Some WorkFlowStatusProcessing.
Proof.
  destruct (other_return_type_stops 3 alwaysRunning 2 asyncStart
              (instance (define "async" [asyncStart])) _ _
              ltac:(discriminate) ltac:(discriminate) eq_refl)
    as (st2 & _ & H1 & _ & H3 & _).
  exists st2. split; [exact H1 | exact H3].
Defined.

(** A node of another return type whose executor marks it finished is left
    Finished, not Processing. *)
Lemma other_return_type_self_finishing_cex :
  NodeDefine.ReturnType asyncSelfFinishing <> SyncFuncNode /\
  NodeDefine.ReturnType asyncSelfFinishing <> PollingNode /\
  match handle 3 alwaysRunning 3 (Some asyncSelfFinishing)
          (instance (define "async" [asyncSelfFinishing])) with
  | Some (true, st) => nodeStatus 0 st = Some WorkFlowStatusFinished /\
                       nodeStatus 0 st <> Some WorkFlowStatusProcessing
  | _ => False
  end.
Proof.
  split; [discriminate|]. split; [discriminate|].
  vm_compute. split; [reflexivity | discriminate].
Defined.






Lemma start_history_in_creation_order_witness :
  Nodes twoSyncRun = seq 0 (length (Heap twoSyncRun)) /\ length (Heap twoSyncRun) = 2%nat.
Proof.
  split.
  - apply (start_history_in_creation_order 3 alwaysRunning 5 (instance twoSync) twoSyncRun);
      [vm_compute; reflexivity | reflexivity].
  - vm_compute. reflexivity.
Defined.

Lemma handle_keeps_earlier_nodes_witness :
  getNode 0 (snd runningRun) = getNode 0 runningInstance.
Proof.
  apply (proj2 (handle_keeps_earlier_nodes 3 alwaysRunning 5 (Some syncStart) runningInstance
                  (fst runningRun) (snd runningRun) ltac:(vm_compute; reflexivity))).
  vm_compute. lia.
Defined.

Lemma start_leaves_last_node_current_witness :
  nodeStatus 1 twoSyncRun = Some WorkFlowStatusFinished /\
  nodeStatus 1 (destroy "user canceled" twoSyncRun) = Some WorkFlowStatusError.
Proof.
  destruct (start_leaves_last_node_current 3 alwaysRunning 5 (instance twoSync) twoSyncRun
              "user canceled" ltac:(vm_compute; reflexivity) eq_refl) as [_ H].
  destruct (getNode 1 twoSyncRun) as [n|] eqn:En; [|vm_compute in En; discriminate].
  unfold nodeStatus. rewrite En, (H 1%nat n ltac:(vm_compute; reflexivity) En).
  split; [|reflexivity]. vm_compute in En. injection En as <-. reflexivity.
Defined.

Lemma handle_only_appends_writes_witness :
  exists l, Db (snd twoSyncHandle) = [] ++ l /\ Forall (createdUnder (Flow (instance twoSync))) l.
Proof.
  destruct (handle_only_appends_writes 3 alwaysRunning 5 (Some syncStart) (instance twoSync)
              (fst twoSyncHandle) (snd twoSyncHandle) ltac:(vm_compute; reflexivity))
    as (_ & _ & H).
  exact H.
Defined.

Lemma handle_failure_sets_FlowError_witness :
  fst failingStartStep = false /\ FlowError (snd failingStartStep) <> None.
Proof.
  split; [vm_compute; reflexivity|].
  apply (proj2 (handle_failure_sets_FlowError 3 alwaysRunning 5 (Some failingStart)
                  (instance failPath) (fst failingStartStep) (snd failingStartStep)
                  ltac:(vm_compute; reflexivity))).
  vm_compute. reflexivity.
Defined.

Lemma start_final_state_witness :
  ((WorkFlow.Status (Flow failPathRun) = WorkFlowStatusFinished /\ FlowError failPathRun = None) \/
   (WorkFlow.Status (Flow failPathRun) = WorkFlowStatusError /\ FlowError failPathRun <> None)) /\
  exists l, Db failPathRun = l ++ [UpdateWorkFlowDetail (Flow failPathRun)
                                    (omap (fun i => Heap failPathRun !! i) (Nodes failPathRun))].
Proof.
  exact (start_final_state 3 alwaysRunning 5 (instance failPath) failPathRun
           ltac:(vm_compute; reflexivity) eq_refl).
Defined.

Lemma start_without_start_node_witness :
  start 3 alwaysRunning 1 (instance noStart) =
    Some (persistDetail (setFlowStatus WorkFlowStatusFinished (instance noStart))).
Proof.
  exact (start_without_start_node 3 alwaysRunning 0 (instance noStart)
           ltac:(vm_compute; reflexivity)).
Defined.

Lemma start_node_failure_ends_error_witness :
  WorkFlow.Status (Flow failPathRun) = WorkFlowStatusError.
Proof.
  apply (start_node_failure_ends_error 3 alwaysRunning 5 (instance failPath) failingStart failPathRun).
  - vm_compute. reflexivity.
  - vm_compute. discriminate.
  - vm_compute. reflexivity.
Defined.

Lemma polling_node_finished_by_executor_witness :
  exists st2,
    OracleCalls st2 = 0%nat /\ Clock st2 = 0 /\
    handle 3 alwaysRunning 4 (Some pollSelfFinishing) (instance (define "poll" [pollSelfFinishing])) =
      handle 3 alwaysRunning 3 None st2.
Proof.
  destruct (polling_node_finished_by_executor 3 alwaysRunning 3 pollSelfFinishing
              (instance (define "poll" [pollSelfFinishing])) _ _ eq_refl eq_refl eq_refl)
    as (st2 & Hh & HO & HC & _).
  exists st2. split; [exact HO|]. split; [exact HC|]. exact Hh.
Defined.

Lemma polling_node_fails_on_answer_witness :
  exists st2,
    nodeResult 0 (pollFailedState 0 0 "disk full" st2) = Some "[TIEM_TASK_FAILED] disk full" /\
    OracleCalls (pollFailedState 0 0 "disk full" st2) = 1%nat.
Proof.
  destruct (polling_node_fails_on_answer 3 (fun _ _ => failedOp "disk full") 10 pollStart
              (instance polling) _ _ 1 "disk full"
              ltac:(lia) ltac:(lia) ltac:(lia) ltac:(lia) eq_refl eq_refl ltac:(discriminate)
              ltac:(intros j Hj; lia) eq_refl) as (st2 & Hg & HO & _).
  exists st2. split; [unfold nodeResult; cbn in Hg |- *; rewrite Hg; reflexivity | exact HO].
Defined.

Lemma polling_never_times_out_at_max_int32_witness :
  handle (2 ^ 31 - 1) alwaysRunning 20 (Some pollStart) (instance polling) = None.
Proof.
  exact (polling_never_times_out_at_max_int32 (2 ^ 31 - 1) alwaysRunning 20 pollStart
           (instance polling) _ _ ltac:(lia) eq_refl eq_refl ltac:(discriminate)
           (fun _ _ => eq_refl)).
Defined.

Lemma handleTaskError_keeps_plain_result_witness :
  handleTaskError (handle 3 alwaysRunning 2) 0 syncStart failedInstance =
    Some (set_FlowError (Some "boom") failedInstance).
Proof.
  rewrite (handleTaskError_keeps_plain_result (handle 3 alwaysRunning 2) 0 syncStart failedInstance
             (WorkFlowNode.Fail (PlainError "boom")
                (WorkFlowNode.Processing (newNode syncStart (instance twoSync))))
             eq_refl ltac:(intros [|[|[|[|[|i]]]]]; discriminate)).
  reflexivity.
Defined.
